(** * CalendarEventExtractor: the ICS generator of [calendar_utils.py]

    A shallow embedding of [generate_ics] together with the parts of the
    Python runtime it relies on ([dict.get], [str.strip], [str],
    truthiness, [datetime.strptime] / [strftime], [pytz.timezone],
    [tz.localize]), followed by the properties of the generator.

    Conventions of the embedding:
    - Python values are the JSON-shaped values the generator receives
      ([pyval]); floats are left out.
    - Python [str] is modelled by [string].  The character classes
      (space, digit, letter case) are Python's on ASCII text; they say
      nothing reliable about a text with a character above 127, where
      Python follows the Unicode tables.  A statement whose truth
      depends on the class of a character of some text therefore carries
      the hypothesis that the text is ASCII ([is_ascii]).
    - Python [int] is [Z].
    - Exceptions are values of [exn]; a computation that prints and may
      raise lives in the monad [M] (lines printed so far, then a value or
      an exception). *)

From Stdlib Require Import String Ascii List ZArith Lia Bool DecimalString.
From stdpp Require Import gmap strings.
Import ListNotations.

#[local] Open Scope string_scope.
#[local] Open Scope Z_scope.
#[local] Arguments String.append !_ _ / : simpl nomatch.

(* ================================================================== *)
(** * Characters and strings *)
(* ================================================================== *)

Module PyStr.

Definition code (c : ascii) : Z := Z.of_N (N_of_ascii c).
Definition chr (n : Z) : ascii := ascii_of_N (Z.to_N n).

Definition nl : string := String "010"%char "".
Definition dquote : ascii := "034"%char.
Definition squote : ascii := "039"%char.
Definition backslash : ascii := "092"%char.

(** [c.isascii()] and [s.isascii()]. *)
Definition is_ascii_char (c : ascii) : bool := code c <? 128.

Fixpoint is_ascii (s : string) : bool :=
  match s with
  | EmptyString => true
  | String c r => is_ascii_char c && is_ascii r
  end.

(** [str.isspace] on the ASCII range: TAB..CR, FS..US and the blank. *)
Definition is_space (c : ascii) : bool :=
  ((9 <=? code c) && (code c <=? 13)) || ((28 <=? code c) && (code c <=? 32)).

(** The value of an ASCII decimal digit, [None] for any other
    character. *)
Definition digit_val (c : ascii) : option Z :=
  if (48 <=? code c) && (code c <=? 57) then Some (code c - 48) else None.

Definition digit_char (n : Z) : ascii := chr (48 + n mod 10).

Definition to_lower (c : ascii) : ascii :=
  if (65 <=? code c) && (code c <=? 90) then chr (code c + 32) else c.

Definition to_upper (c : ascii) : ascii :=
  if (97 <=? code c) && (code c <=? 122) then chr (code c - 32) else c.

Fixpoint map_chars (f : ascii -> ascii) (s : string) : string :=
  match s with
  | EmptyString => EmptyString
  | String c r => String (f c) (map_chars f r)
  end.

(** [s.lower()] and [s.upper()]. *)
Definition lower : string -> string := map_chars to_lower.
Definition upper : string -> string := map_chars to_upper.

Fixpoint lstrip (s : string) : string :=
  match s with
  | String c r => if is_space c then lstrip r else s
  | EmptyString => EmptyString
  end.

Fixpoint rstrip (s : string) : string :=
  match s with
  | String c r =>
      match rstrip r with
      | EmptyString => if is_space c then EmptyString else String c EmptyString
      | r' => String c r'
      end
  | EmptyString => EmptyString
  end.

(** [s.strip()] without argument. *)
Definition strip (s : string) : string := lstrip (rstrip s).

Fixpoint contains (c : ascii) (s : string) : bool :=
  match s with
  | EmptyString => false
  | String a r => (a =? c)%char || contains c r
  end.

(** [str(n)] for an integer. *)
Definition str_of_Z (z : Z) : string := NilZero.string_of_int (Z.to_int z).

Definition hex_char (n : Z) : ascii :=
  if n <? 10 then chr (48 + n) else chr (87 + n).

(** One character of [repr(s)], for the quote character [q] in use;
    [repr] of ASCII text. *)
Definition repr_char (q c : ascii) : string :=
  if (c =? q)%char || (c =? backslash)%char then String backslash (String c "")
  else if (code c =? 9) then String backslash "t"
  else if (code c =? 10) then String backslash "n"
  else if (code c =? 13) then String backslash "r"
  else if (code c <? 32) || (code c =? 127)
       then String backslash
              (String "x" (String (hex_char (code c / 16))
                             (String (hex_char (code c mod 16)) "")))
  else String c "".

Fixpoint repr_body (q : ascii) (s : string) : string :=
  match s with
  | EmptyString => EmptyString
  | String c r => repr_char q c ++ repr_body q r
  end.

(** [repr(s)] of a string: single quotes unless the text has a single
    quote and no double quote. *)
Definition repr_str (s : string) : string :=
  let q := if contains squote s && negb (contains dquote s)
           then dquote else squote in
  String q (repr_body q s ++ String q "").

End PyStr.

Import PyStr.

(* ================================================================== *)
(** * Python values *)
(* ================================================================== *)

(** What [json.loads] can hand to the generator.  A dict is kept as the
    list of its items in insertion order; [dict_get] reads the first
    binding of a key. *)
#[warnings="-register-all"]
Inductive pyval : Type :=
| VNone
| VBool (b : bool)
| VInt (z : Z)
| VStr (s : string)
| VList (l : list pyval)
| VDict (d : list (string * pyval)).

Fixpoint dict_get (d : list (string * pyval)) (k : string) : option pyval :=
  match d with
  | [] => None
  | (k', v) :: r => if (k' =? k)%string then Some v else dict_get r k
  end.

(** [repr(v)]. *)
Fixpoint py_repr (v : pyval) : string :=
  match v with
  | VNone => "None"
  | VBool true => "True"
  | VBool false => "False"
  | VInt z => str_of_Z z
  | VStr s => repr_str s
  | VList l =>
      "[" ++ (fix items (l : list pyval) : string :=
                match l with
                | [] => ""
                | x :: r =>
                    match r with
                    | [] => py_repr x
                    | _ => py_repr x ++ ", " ++ items r
                    end
                end) l ++ "]"
  | VDict d =>
      "{" ++ (fix items (d : list (string * pyval)) : string :=
                match d with
                | [] => ""
                | (k, x) :: r =>
                    match r with
                    | [] => repr_str k ++ ": " ++ py_repr x
                    | _ => repr_str k ++ ": " ++ py_repr x ++ ", " ++ items r
                    end
                end) d ++ "}"
  end.

(** [str(v)], which is also what an f-string field [{v}] renders. *)
Definition py_str (v : pyval) : string :=
  match v with
  | VStr s => s
  | _ => py_repr v
  end.

(** Truth value of [v] in [if v:], [not v] and [v or w]. *)
Definition truthy (v : pyval) : bool :=
  match v with
  | VNone => false
  | VBool b => b
  | VInt z => negb (z =? 0)
  | VStr s => negb (s =? "")%string
  | VList l => match l with [] => false | _ => true end
  | VDict d => match d with [] => false | _ => true end
  end.

(** [a or b]. *)
Definition py_or (a b : pyval) : pyval := if truthy a then a else b.

(* ================================================================== *)
(** * Exceptions, and computations that print *)
(* ================================================================== *)

Inductive exn : Type :=
| TypeError
| AttributeError
| ValueError
| OverflowError
| UnknownTimeZoneError.

Inductive result (A : Type) : Type :=
| Ok (a : A)
| Raise (e : exn).
Arguments Ok {A} a.
Arguments Raise {A} e.

Definition rbind {A B} (r : result A) (k : A -> result B) : result B :=
  match r with
  | Ok a => k a
  | Raise e => Raise e
  end.

(** The lines [generate_ics] prints.  The text after the colon of the
    second message is the exception's own text, which is not modelled. *)
Inductive line : Type :=
| SkipMissingStartDate (summary : string)
    (* "Skipping event '{summary}' due to missing start date." *)
| SkipInvalidDate (summary : string)
    (* "Skipping event '{summary}' due to invalid date format: ..." *)
| FileSaved (filename : string).
    (* "ICS file saved as {filename}" *)

(** Output printed so far, then the value or the exception. *)
Definition M (A : Type) : Type := (list line * result A)%type.

Definition ret {A} (a : A) : M A := ([], Ok a).
Definition raise {A} (e : exn) : M A := ([], Raise e).
Definition print (l : line) : M unit := ([l], Ok tt).
Definition lift {A} (r : result A) : M A := ([], r).

Definition bind {A B} (m : M A) (k : A -> M B) : M B :=
  match m with
  | (out, Ok a) => let '(out', r) := k a in ((out ++ out')%list, r)
  | (out, Raise e) => (out, Raise e)
  end.

Declare Scope py_scope.
Delimit Scope py_scope with py.
Notation "'let*' x ':=' m 'in' k" := (bind m (fun x => k))
  (at level 10, x pattern, m at level 100, k at level 200,
   only parsing) : py_scope.
Notation "'let+' x ':=' r 'in' k" := (rbind r (fun x => k))
  (at level 10, x pattern, r at level 100, k at level 200,
   only parsing) : py_scope.
#[local] Open Scope py_scope.

(** [d.get(k, default)] on a dict. *)
Definition dict_get_or (d : list (string * pyval)) (k : string)
    (default : pyval) : pyval :=
  match dict_get d k with
  | Some x => x
  | None => default
  end.

(** [v.get(k, default)]: only a dict has the method. *)
Definition py_get (v : pyval) (k : string) (default : pyval) : result pyval :=
  match v with
  | VDict d => Ok (dict_get_or d k default)
  | _ => Raise AttributeError
  end.

(** [v.strip()]: only a string has the method. *)
Definition py_strip (v : pyval) : result string :=
  match v with
  | VStr s => Ok (strip s)
  | _ => Raise AttributeError
  end.

(* ================================================================== *)
(** * Dates and times: the [datetime] module *)
(* ================================================================== *)

Record date : Type := mkDate { year : Z; month : Z; day : Z }.

(** A naive [datetime.datetime]. *)
Record datetime : Type :=
  mkDatetime { dt_date : date; hour : Z; minute : Z; second : Z }.

(** A localized [datetime]: the wall-clock fields and the UTC offset, in
    minutes, of the attached [tzinfo]. *)
Record aware : Type := mkAware { wall : datetime; utcoffset : Z }.

Definition is_leap (y : Z) : bool :=
  (y mod 4 =? 0) && (negb (y mod 100 =? 0) || (y mod 400 =? 0)).

Definition days_in_month (y m : Z) : Z :=
  if m =? 2 then (if is_leap y then 29 else 28)
  else if (m =? 4) || (m =? 6) || (m =? 9) || (m =? 11) then 30
  else 31.

Definition MINYEAR : Z := 1.
Definition MAXYEAR : Z := 9999.

Definition valid_date (d : date) : bool :=
  (MINYEAR <=? year d) && (year d <=? MAXYEAR) &&
  (1 <=? month d) && (month d <=? 12) &&
  (1 <=? day d) && (day d <=? days_in_month (year d) (month d)).

(** [datetime.date(y, m, d)]: [None] stands for its [ValueError]. *)
Definition make_date (y m d : Z) : option date :=
  if valid_date (mkDate y m d) then Some (mkDate y m d) else None.

(** [d.toordinal()]: days since 0001-01-01, that day being 1. *)
Definition days_before_year (y : Z) : Z :=
  let p := y - 1 in p * 365 + p / 4 - p / 100 + p / 400.

Fixpoint days_before_month_upto (y : Z) (n : nat) : Z :=
  match n with
  | O => 0
  | S k => days_before_month_upto y k + days_in_month y (Z.of_nat (S k))
  end.

Definition days_before_month (y m : Z) : Z :=
  days_before_month_upto y (Z.to_nat (m - 1)).

Definition toordinal (d : date) : Z :=
  days_before_year (year d) + days_before_month (year d) (month d) + day d.

(** [d + datetime.timedelta(days=1)]: the next calendar day, and
    [OverflowError] past 9999-12-31. *)
Definition date_add_one_day (d : date) : result date :=
  if day d <? days_in_month (year d) (month d)
  then Ok (mkDate (year d) (month d) (day d + 1))
  else if month d <? 12
  then Ok (mkDate (year d) (month d + 1) 1)
  else if year d <? MAXYEAR
  then Ok (mkDate (year d + 1) 1 1)
  else Raise OverflowError.

(** ** [strftime] *)

Definition pad2 (n : Z) : string :=
  String (digit_char (n / 10)) (String (digit_char n) "").

Definition pad4 (n : Z) : string :=
  String (digit_char (n / 1000))
    (String (digit_char (n / 100))
       (String (digit_char (n / 10)) (String (digit_char n) ""))).

(** The directive [%Y] of [strftime].  CPython hands the format to the
    C library, and the C library of the host writes the year in decimal
    without padding: four digits from the year 1000 on, fewer before
    ([datetime.date(999, 1, 1).strftime('%Y')] is ['999']). *)
Definition strftime_Y (y : Z) : string := str_of_Z y.

(** [d.strftime('%Y%m%d')]. *)
Definition strftime_date (d : date) : string :=
  strftime_Y (year d) ++ pad2 (month d) ++ pad2 (day d).

(** [dt.strftime('%Y%m%dT%H%M%S')]: the wall-clock fields of [dt]. *)
Definition strftime_datetime (a : aware) : string :=
  strftime_date (dt_date (wall a)) ++ "T" ++
  pad2 (hour (wall a)) ++ pad2 (minute (wall a)) ++ pad2 (second (wall a)).

(** ** [strptime]

    [datetime.strptime] turns the format into a regular expression,
    matches it at the start of the text and rejects text that is left
    over.  In both formats used here every numeric directive is followed
    by a character that is not a digit (or by the end of the text), so a
    directive matches exactly when the maximal run of digits at that
    place has an admissible length and value:
    - [%Y], regex [\d\d\d\d]: four digits;
    - [%m], regex [1[0-2]|0[1-9]|[1-9]]: one or two digits, 1..12;
    - [%d], regex [3[0-1]|[1-2]\d|0[1-9]|[1-9]| [1-9]]: one or two
      digits, 1..31, or a blank and one digit 1..9;
    - [%H], regex [2[0-3]|[0-1]\d|\d]: one or two digits, 0..23;
    - [%M], regex [[0-5]\d|\d]: one or two digits, 0..59;
    - the blank of the format, regex [\s+]: one or more spaces. *)

Fixpoint take_digits (s : string) : list Z * string :=
  match s with
  | String c r =>
      match digit_val c with
      | Some d => let '(ds, r') := take_digits r in (d :: ds, r')
      | None => ([], s)
      end
  | EmptyString => ([], EmptyString)
  end.

Definition number (ds : list Z) : Z :=
  fold_left (fun acc d => 10 * acc + d) ds 0.

(** A run of [lo_len..hi_len] digits whose value is in [lo..hi]. *)
Definition digits_field (lo_len hi_len : nat) (lo hi : Z) (s : string)
  : option (Z * string) :=
  let '(ds, r) := take_digits s in
  if (lo_len <=? length ds)%nat && (length ds <=? hi_len)%nat &&
     (lo <=? number ds) && (number ds <=? hi)
  then Some (number ds, r) else None.

Definition re_Y : string -> option (Z * string) := digits_field 4 4 0 9999.
Definition re_m : string -> option (Z * string) := digits_field 1 2 1 12.
Definition re_H : string -> option (Z * string) := digits_field 1 2 0 23.
Definition re_M : string -> option (Z * string) := digits_field 1 2 0 59.

Definition re_d (s : string) : option (Z * string) :=
  match s with
  | String " "%char r => digits_field 1 1 1 9 r
  | _ => digits_field 1 2 1 31 s
  end.

(** A literal character of the format. *)
Definition expect (c : ascii) (s : string) : option string :=
  match s with
  | String a r => if (a =? c)%char then Some r else None
  | EmptyString => None
  end.

(** [\s+]. *)
Definition re_spaces (s : string) : option string :=
  match s with
  | String a r => if is_space a then Some (lstrip r) else None
  | EmptyString => None
  end.

(** The match of ["%Y-%m-%d"] at the start of [s]: the three numbers and
    the rest of the text. *)
Definition match_ymd (s : string) : option (Z * Z * Z * string) :=
  match re_Y s with
  | Some (y, r1) =>
      match expect "-" r1 with
      | Some r2 =>
          match re_m r2 with
          | Some (m, r3) =>
              match expect "-" r3 with
              | Some r4 =>
                  match re_d r4 with
                  | Some (d, r5) => Some (y, m, d, r5)
                  | None => None
                  end
              | None => None
              end
          | None => None
          end
      | None => None
      end
  | None => None
  end.

(** The match of ["%H:%M"] at the start of [s]. *)
Definition match_hm (s : string) : option (Z * Z * string) :=
  match re_H s with
  | Some (h, r1) =>
      match expect ":" r1 with
      | Some r2 =>
          match re_M r2 with
          | Some (m, r3) => Some (h, m, r3)
          | None => None
          end
      | None => None
      end
  | None => None
  end.

(** [datetime.strptime(s, "%Y-%m-%d").date()]; [None] is [ValueError]. *)
Definition strptime_date (s : string) : option date :=
  match match_ymd s with
  | Some (y, m, d, EmptyString) => make_date y m d
  | _ => None
  end.

(** [datetime.strptime(s, "%Y-%m-%d %H:%M")]; [None] is [ValueError]. *)
Definition strptime_datetime (s : string) : option datetime :=
  match match_ymd s with
  | Some (y, m, d, r) =>
      match re_spaces r with
      | Some r' =>
          match match_hm r' with
          | Some (h, mi, EmptyString) =>
              match make_date y m d with
              | Some dd => Some (mkDatetime dd h mi 0)
              | None => None
              end
          | _ => None
          end
      | None => None
      end
  | None => None
  end.

(** [strptime] called on a Python value: a [TypeError] unless it is a
    string. *)
Definition py_strptime_date (v : pyval) : result date :=
  match v with
  | VStr s =>
      match strptime_date s with
      | Some d => Ok d
      | None => Raise ValueError
      end
  | _ => Raise TypeError
  end.

Definition py_strptime_datetime (s : string) : result datetime :=
  match strptime_datetime s with
  | Some d => Ok d
  | None => Raise ValueError
  end.

(* ================================================================== *)
(** * The timezone database: [pytz] *)
(* ================================================================== *)

(** A zone gives, for a wall-clock time, the UTC offset in minutes that
    [localize] attaches, or the exception [localize] raises there. *)
Definition zone : Type := datetime -> result Z.

(** The database: the zones it knows by name. *)
Definition tzdb : Type := string -> option zone.

(** [pytz.timezone(v)]: a name is looked up in the database; [None] is
    refused as an unknown zone, and any other value fails at the [upper]
    method that [pytz] calls on it first. *)
Definition pytz_timezone (db : tzdb) (v : pyval) : result zone :=
  match v with
  | VStr name =>
      match db name with
      | Some z => Ok z
      | None => Raise UnknownTimeZoneError
      end
  | VNone => Raise UnknownTimeZoneError
  | _ => Raise AttributeError
  end.

(** [tz.localize(dt)]: the wall-clock fields are kept. *)
Definition localize (tz : zone) (dt : datetime) : result aware :=
  let+ off := tz dt in Ok (mkAware dt off).

(* ================================================================== *)
(** * [generate_ics] *)
(* ================================================================== *)

(** The fixed text before the events (lines 41-46) and after them
    (line 138). *)
Definition ics_header : string :=
  "BEGIN:VCALENDAR" ++ nl ++
  "VERSION:2.0" ++ nl ++
  "PRODID:-//Custom Calendar//NONSGML v1.0//EN" ++ nl ++
  "CALSCALE:GREGORIAN" ++ nl.

Definition ics_footer : string := "END:VCALENDAR".

(** The local variables set by the extraction step (lines 52-63). *)
Record fields : Type := mkFields {
  f_summary : pyval;
  f_start_date : pyval;
  f_end_date : string;
  f_start_time : string;
  f_end_time : string;
  f_timezone : pyval;
  f_location : pyval;
  f_description : pyval;
  f_recurrence : pyval
}.

(** Lines 52-63, in the order of the source: the first [event.get]
    raises when [event] is not a dict, each [.strip()] when its value is
    not a string. *)
Definition extract_fields (event : pyval) : result fields :=
  let+ summary := py_get event "summary" (VStr "Unnamed Event") in
  let+ start_date := py_get event "start_date" (VStr "none") in
  let+ end_date_raw := py_get event "end_date" VNone in
  let+ end_date := py_strip (py_or end_date_raw start_date) in
  let+ start_time_raw := py_get event "start_time" VNone in
  let+ start_time := py_strip (py_or start_time_raw (VStr "")) in
  let+ end_time_raw := py_get event "end_time" VNone in
  let+ end_time := py_strip (py_or end_time_raw (VStr "")) in
  let+ timezone := py_get event "timezone" (VStr "none") in
  let+ location := py_get event "location" (VStr "") in
  let+ description := py_get event "description" (VStr "") in
  let+ recurrence := py_get event "recurrence" VNone in
  Ok (mkFields summary start_date end_date start_time end_time
        timezone location description recurrence).

(** [str(v).lower() == "none"] (lines 66 and 71). *)
Definition is_none_sentinel (v : pyval) : bool :=
  (lower (py_str v) =? "none")%string.

(** Lines 71-72: the zone name used from here on. *)
Definition effective_timezone (local_timezone : string) (timezone : pyval)
  : pyval :=
  if is_none_sentinel timezone then VStr local_timezone else timezone.

(** What the [try] block (lines 78-97) leaves behind. *)
Inductive resolved : Type :=
| AllDay (start_date_obj end_date_obj : date)
| Timed (start_dt end_dt : aware).

(** The body of the [try] block. *)
Definition build_datetimes (tz : zone) (fs : fields) : result resolved :=
  if (f_start_time fs =? "")%string then
    let+ start_date_obj := py_strptime_date (f_start_date fs) in
    let+ end_parsed := py_strptime_date (VStr (f_end_date fs)) in
    let+ end_date_obj := date_add_one_day end_parsed in
    Ok (AllDay start_date_obj end_date_obj)
  else
    let end_time :=
      if negb (truthy (VStr (f_end_time fs)))
      then f_start_time fs else f_end_time fs in
    let+ start_naive :=
      py_strptime_datetime
        (py_str (f_start_date fs) ++ " " ++ f_start_time fs) in
    let+ start_dt := localize tz start_naive in
    let+ end_naive :=
      py_strptime_datetime (f_end_date fs ++ " " ++ end_time) in
    let+ end_dt := localize tz end_naive in
    Ok (Timed start_dt end_dt).

(** Lines 103-120: the block up to the description line. *)
Definition compose_vevent (fs : fields) (timezone : pyval) (r : resolved)
  : string :=
  match r with
  | AllDay start_date_obj end_date_obj =>
      "BEGIN:VEVENT" ++ nl ++
      "SUMMARY:" ++ py_str (f_summary fs) ++ nl ++
      "DTSTART;VALUE=DATE:" ++ strftime_date start_date_obj ++ nl ++
      "DTEND;VALUE=DATE:" ++ strftime_date end_date_obj ++ nl ++
      "LOCATION:" ++ py_str (f_location fs) ++ nl ++
      "DESCRIPTION:" ++ py_str (f_description fs) ++ nl
  | Timed start_dt end_dt =>
      "BEGIN:VEVENT" ++ nl ++
      "SUMMARY:" ++ py_str (f_summary fs) ++ nl ++
      "DTSTART;TZID=" ++ py_str timezone ++ ":" ++
        strftime_datetime start_dt ++ nl ++
      "DTEND;TZID=" ++ py_str timezone ++ ":" ++
        strftime_datetime end_dt ++ nl ++
      "LOCATION:" ++ py_str (f_location fs) ++ nl ++
      "DESCRIPTION:" ++ py_str (f_description fs) ++ nl
  end.

(** [freq in {"DAILY", "WEEKLY", "MONTHLY"}]. *)
Definition known_frequency (freq : string) : bool :=
  (freq =? "DAILY")%string || (freq =? "WEEKLY")%string ||
  (freq =? "MONTHLY")%string.

(** Lines 123-132: the block with its recurrence line, if any. *)
Definition add_recurrence (ics_event : string) (recurrence : pyval)
  : result string :=
  if truthy recurrence then
    let+ frequency := py_get recurrence "frequency" (VStr "none") in
    let freq := upper (py_str frequency) in
    let+ interval := py_get recurrence "interval" (VInt 1) in
    let+ count := py_get recurrence "count" VNone in
    if known_frequency freq then
      let rrule := "RRULE:FREQ=" ++ freq ++ ";INTERVAL=" ++ py_str interval in
      let rrule :=
        if truthy count then rrule ++ ";COUNT=" ++ py_str count else rrule in
      Ok (ics_event ++ (rrule ++ nl))
    else Ok ics_event
  else Ok ics_event.

(** One turn of the loop (lines 51-134): [None] when the turn ends in
    [continue], and the finished block otherwise.  [ValueError] is the
    only exception the [try] statement catches. *)
Definition process_event (db : tzdb) (local_timezone : string)
    (event : pyval) : M (option string) :=
  let* fs := lift (extract_fields event) in
  if is_none_sentinel (f_start_date fs) then
    let* _ := print (SkipMissingStartDate (py_str (f_summary fs))) in
    ret None
  else
    let timezone := effective_timezone local_timezone (f_timezone fs) in
    let* tz := lift (pytz_timezone db timezone) in
    match build_datetimes tz fs with
    | Raise ValueError =>
        let* _ := print (SkipInvalidDate (py_str (f_summary fs))) in
        ret None
    | Raise e => raise e
    | Ok r =>
        let ics_event := compose_vevent fs timezone r in
        let* ics_event := lift (add_recurrence ics_event (f_recurrence fs)) in
        ret (Some (ics_event ++ ("END:VEVENT" ++ nl)))
    end.

(** The [for] loop (lines 50-135), threading [ics_content]. *)
Fixpoint for_events (db : tzdb) (local_timezone : string)
    (events : list pyval) (ics_content : string) : M string :=
  match events with
  | [] => ret ics_content
  | event :: rest =>
      let* r := process_event db local_timezone event in
      match r with
      | None => for_events db local_timezone rest ics_content
      | Some ics_event =>
          for_events db local_timezone rest (ics_content ++ ics_event)
      end
  end.

(** Lines 34-35: a dict with an ["events"] key is replaced by that
    entry. *)
Definition unwrap_events (events : pyval) : pyval :=
  match events with
  | VDict d =>
      match dict_get d "events" with
      | Some inner => inner
      | None => events
      end
  | _ => events
  end.

(** Lines 34-138: the text of the calendar. *)
Definition ics_document (db : tzdb) (local_timezone : string)
    (events : pyval) : M string :=
  match unwrap_events events with
  | VList l =>
      let* ics_content := for_events db local_timezone l ics_header in
      ret (ics_content ++ ics_footer)
  | _ => raise TypeError
  end.

(** What surrounds a run: the host's zone name ([get_localzone().key]),
    the timezone database, the clock, the console and the files. *)
Record World : Type := mkWorld {
  local_zone : string;
  zones : tzdb;
  clock : Z;
  stdout : list line;
  files : gmap string string
}.

Definition with_output (w : World) (out : list line) : World :=
  mkWorld (local_zone w) (zones w) (clock w) ((stdout w ++ out)%list) (files w).

Definition write_file (w : World) (filename content : string) : World :=
  mkWorld (local_zone w) (zones w) (clock w) (stdout w)
    (<[filename := content]> (files w)).

(** [generate_ics(events, filename)]: the exception that ends the run,
    if any, and the world after it.  The file is written (line 140) only
    once the whole text is built.  The file system of the model takes
    every name and every text: a failure of [open] or of [write] is not
    modelled. *)
Definition generate_ics (events : pyval) (filename : string) (w : World)
  : result unit * World :=
  match ics_document (zones w) (local_zone w) events with
  | (out, Ok ics_content) =>
      (Ok tt,
       with_output (write_file (with_output w out) filename ics_content)
         [FileSaved filename])
  | (out, Raise e) => (Raise e, with_output w out)
  end.

(* ================================================================== *)
(** * [API.py]: the wrapper around the text-generation service *)
(* ================================================================== *)

(** The attributes of an [API] object. *)
Record API : Type := mkAPI {
  api_key : string;
  location : string;
  language : string;
  default_model : string
}.

(** [API.__init__] (lines 68-83): the key is stripped and must not be
    empty.  The call [genai.configure], which hands the key to the
    client library, is not modelled. *)
Definition API_init (gemini_api_key location language default_model : string)
  : result API :=
  let api_key := strip gemini_api_key in
  if negb (truthy (VStr api_key)) then Raise ValueError
  else Ok (mkAPI api_key location language default_model).

(** [d.strftime("%Y-%m-%d")]. *)
Definition strftime_iso (d : date) : string :=
  strftime_Y (year d) ++ "-" ++ pad2 (month d) ++ "-" ++ pad2 (day d).

Definition dq : string := String dquote "".

(** [API.generate_prompt] (lines 90-130); [today] is what
    [datetime.date.today()] returns. *)
Definition generate_prompt (self : API) (today : date) : string :=
  let current_date := strftime_iso today in
  "Extract every calendar event mentioned in the following text and return only a single JSON object like this:" ++ nl ++
  "{" ++ nl ++
  "  " ++ dq ++ "events" ++ dq ++ ": [" ++ nl ++
  "    {" ++ nl ++
  "      " ++ dq ++ "summary" ++ dq ++ ": " ++ dq ++ "Team Meeting" ++ dq ++ "," ++ nl ++
  "      " ++ dq ++ "start_date" ++ dq ++ ": " ++ dq ++ "2025-03-10" ++ dq ++ "," ++ nl ++
  "      " ++ dq ++ "end_date" ++ dq ++ ": " ++ dq ++ "2025-03-10" ++ dq ++ "," ++ nl ++
  "      " ++ dq ++ "start_time" ++ dq ++ ": " ++ dq ++ "10:00" ++ dq ++ "," ++ nl ++
  "      " ++ dq ++ "end_time" ++ dq ++ ":   " ++ dq ++ "11:00" ++ dq ++ "," ++ nl ++
  "      " ++ dq ++ "timezone" ++ dq ++ ":   " ++ dq ++ "Australia/Adelaide" ++ dq ++ "," ++ nl ++
  "      " ++ dq ++ "location" ++ dq ++ ":   " ++ dq ++ "Room 101" ++ dq ++ "," ++ nl ++
  "      " ++ dq ++ "description" ++ dq ++ ":" ++ dq ++ "Quarterly planning session \n organiser: ACME Corp \n source: ACME webpage" ++ dq ++ "," ++ nl ++
  "      " ++ dq ++ "tz_conversion" ++ dq ++ ": " ++ dq ++ "Sydney 10:30‑11:30 → Adelaide 10:00‑11:00" ++ dq ++ "," ++ nl ++
  "      " ++ dq ++ "recurrence" ++ dq ++ ": {" ++ nl ++
  "        " ++ dq ++ "frequency" ++ dq ++ ": " ++ dq ++ "daily" ++ dq ++ "," ++ nl ++
  "        " ++ dq ++ "interval" ++ dq ++ ":  1," ++ nl ++
  "        " ++ dq ++ "count" ++ dq ++ ":     5" ++ nl ++
  "      }" ++ nl ++
  "    }" ++ nl ++
  "  ]" ++ nl ++
  "}" ++ nl ++
  nl ++
  "Rules" ++ nl ++
  "-----" ++ nl ++
  "1. If the same event is repeated in the text, merge the duplicates." ++ nl ++
  "2. Convert every time to the correct time‑zone which is " ++ location self ++ "." ++ nl ++
  "3. Output MUST be valid JSON with no extra text. If a timezone conversion is" ++ nl ++
  "   needed, fill the “tz_conversion” field with the before‑and‑after information;" ++ nl ++
  "   otherwise, leave this field empty." ++ nl ++
  "4. All field values must be written in " ++ language self ++ "." ++ nl ++
  "5. The description field should include (when available): event summary(should less than 5 setence)," ++ nl ++
  "   organiser, and the source from where the event was extracted (e.g. ACME webpage)." ++ nl ++
  "6. The times shown in event details are usually given in the event’s local time zone. If that differs from the user’s current time zone, they’ll need to convert the times accordingly." ++ nl ++
  nl ++
  "(Current date: " ++ current_date ++ ")" ++ nl ++
  nl ++
  "Here is the text:" ++ nl.

(** What the module prints and logs. *)
Inductive api_line : Type :=
| PrintGenerating (location language : string)
    (* "Generate calendar event ....", the zone and the language *)
| LogNoJson
    (* warning "No JSON object found in Gemini reply." *)
| LogParsed (events : nat)
    (* info "JSON parsed successfully (%d event(s) found)." *)
| LogDecodeFailed
    (* error "JSON decoding failed: ..." *)
| PrintConversion (tz_info summary : string).
    (* 'Timezone conversion triggered: "{tz_info}" in "{summary}"' *)

(** The text-generation service: for a model name and a history of
    (role, parts) messages, the text of the reply or the exception of
    the call. *)
Definition service : Type :=
  string -> list (string * list string) -> result string.

(** [API.gemini_normal] (lines 132-139). *)
Definition gemini_normal (generate_content : service) (self : API)
    (message : string) : result string :=
  let history := [("user", [message])] in
  generate_content (default_model self) history.

(** [API.gemini_calendar] (lines 141-150). *)
Definition gemini_calendar (generate_content : service) (today : date)
    (self : API) (message : string) : list api_line * result string :=
  let prompt := generate_prompt self today in
  let full_message := prompt ++ nl ++ message in
  ([PrintGenerating (location self) (language self)],
   gemini_normal generate_content self full_message).

(** The longest prefix of [s] that ends with a closing brace: what
    [.*\}] matches, with [.] matching every character. *)
Fixpoint upto_last_close (s : string) : option string :=
  match s with
  | EmptyString => None
  | String c r =>
      match upto_last_close r with
      | Some p => Some (String c p)
      | None => if (c =? "}")%char then Some (String c EmptyString) else None
      end
  end.

(** [re.search(r"\{.*\}", s, re.DOTALL)]: the match at the first
    position where there is one. *)
Fixpoint search_json_object (s : string) : option string :=
  match s with
  | EmptyString => None
  | String c r =>
      if (c =? "{")%char then
        match upto_last_close r with
        | Some body => Some (String c body)
        | None => search_json_object r
        end
      else search_json_object r
  end.

(** [len(v)]; for a string, of ASCII text. *)
Definition py_len (v : pyval) : result nat :=
  match v with
  | VStr s => Ok (String.length s)
  | VList l => Ok (length l)
  | VDict d => Ok (length d)
  | _ => Raise TypeError
  end.

(** [API.extract_and_parse_json] (lines 155-180).  [json_loads] stands
    for [json.loads], [None] being its [JSONDecodeError]; Python's [None]
    result is [VNone].  The [try] statement catches the decoding error
    only, so what [parsed.get] and [len] raise gets through. *)
Definition extract_and_parse_json (json_loads : string -> option pyval)
    (reply_text : string) : list api_line * result pyval :=
  match search_json_object reply_text with
  | None => ([LogNoJson], Ok VNone)
  | Some json_str =>
      match json_loads json_str with
      | None => ([LogDecodeFailed], Ok VNone)
      | Some parsed =>
          match (let+ events := py_get parsed "events" (VList []) in
                 py_len events) with
          | Ok n => ([LogParsed n], Ok parsed)
          | Raise e => ([], Raise e)
          end
      end
  end.

(** The values a [for] statement takes from [v]. *)
Definition py_iter (v : pyval) : result (list pyval) :=
  match v with
  | VList l => Ok l
  | VStr s =>
      Ok (map (fun c => VStr (String c EmptyString)) (list_ascii_of_string s))
  | VDict d => Ok (map (fun kv => VStr (fst kv)) d)
  | _ => Raise TypeError
  end.

(** The loop of [extract_event] (lines 191-197). *)
Fixpoint report_conversions (events : list pyval)
  : list api_line * result unit :=
  match events with
  | [] => ([], Ok tt)
  | event :: rest =>
      match py_get event "tz_conversion" (VStr "") with
      | Raise e => ([], Raise e)
      | Ok tz_info =>
          if truthy tz_info then
            match py_get event "summary" (VStr "") with
            | Raise e => ([], Raise e)
            | Ok summary =>
                let '(out, r) := report_conversions rest in
                (PrintConversion (py_str tz_info) (py_str summary) :: out, r)
            end
          else report_conversions rest
      end
  end.

(** [API.extract_event] (lines 182-198). *)
Definition extract_event (generate_content : service)
    (json_loads : string -> option pyval) (today : date)
    (self : API) (message : string) : list api_line * result pyval :=
  match gemini_calendar generate_content today self message with
  | (out1, Raise e) => (out1, Raise e)
  | (out1, Ok raw_json) =>
      match extract_and_parse_json json_loads raw_json with
      | (out2, Raise e) => ((out1 ++ out2)%list, Raise e)
      | (out2, Ok data) =>
          if truthy data then
            match (let+ events := py_get data "events" (VList []) in
                   py_iter events) with
            | Raise e => ((out1 ++ out2)%list, Raise e)
            | Ok events =>
                match report_conversions events with
                | (out3, Raise e) => ((out1 ++ out2 ++ out3)%list, Raise e)
                | (out3, Ok _) => ((out1 ++ out2 ++ out3)%list, Ok data)
                end
            end
          else ((out1 ++ out2)%list, Ok data)
      end
  end.

(* ================================================================== *)
(** * Vocabulary of the statements *)
(* ================================================================== *)

(** The blocks of a run, one entry per turn of the loop ([None] for a
    turn that ended in [continue]), put end to end. *)
Fixpoint join_blocks (rs : list (option string)) : string :=
  match rs with
  | [] => ""
  | Some b :: rest => b ++ join_blocks rest
  | None :: rest => join_blocks rest
  end.

(** The turn for [event] ends without an exception, with result [r]. *)
Definition turn_result (db : tzdb) (local_timezone : string)
    (event : pyval) (r : option string) : Prop :=
  exists out, process_event db local_timezone event = (out, Ok r).

Fixpoint has_space (s : string) : bool :=
  match s with
  | EmptyString => false
  | String c r => is_space c || has_space r
  end.

Fixpoint all_space (s : string) : bool :=
  match s with
  | EmptyString => true
  | String c r => is_space c && all_space r
  end.

(** The lines of a text, as [s.split("\n")] gives them. *)
Fixpoint split_lines (s : string) : list string :=
  match s with
  | EmptyString => [EmptyString]
  | String c r =>
      if (c =? "010")%char then EmptyString :: split_lines r
      else match split_lines r with
           | [] => [String c EmptyString]
           | l :: ls => String c l :: ls
           end
  end.

(** The lines of a text that start with [RRULE:]. *)
Definition rrule_lines (s : string) : list string :=
  List.filter (String.prefix "RRULE:") (split_lines s).

(** The recurrence line for an upper-cased frequency and the values of
    [interval] and [count]: the count is written when it is truthy. *)
Definition rrule_of (freq : string) (interval count : pyval) : string :=
  "RRULE:FREQ=" ++ freq ++ ";INTERVAL=" ++ py_str interval ++
  (if truthy count then ";COUNT=" ++ py_str count else "").

(** What follows the last space of a text (the whole text when it has
    no space). *)
Fixpoint last_word (s : string) : string :=
  match s with
  | EmptyString => EmptyString
  | String c r =>
      if has_space r then last_word r
      else if is_space c then r else s
  end.

(** The text starts with a space. *)
Definition starts_with_space (s : string) : Prop :=
  match s with
  | String c _ => is_space c = true
  | EmptyString => False
  end.

(** Two databases that know the same zone names and whose zones raise,
    at every wall-clock time, the same exception or none; the offsets
    they give are free to differ. *)
Definition zones_agree (db1 db2 : tzdb) : Prop :=
  forall name,
    match db1 name, db2 name with
    | Some z1, Some z2 =>
        forall dt,
          match z1 dt, z2 dt with
          | Ok _, Ok _ => True
          | Raise e1, Raise e2 => e1 = e2
          | _, _ => False
          end
    | None, None => True
    | _, _ => False
    end.

(** A small database and world to run examples in. *)
Definition sample_zones : tzdb :=
  fun name =>
    if (name =? "UTC")%string then Some (fun _ => Ok 0)
    else if (name =? "Australia/Adelaide")%string then Some (fun _ => Ok 570)
    else None.

Definition sample_world : World :=
  mkWorld "Australia/Adelaide" sample_zones 0 [] ∅.

(** How many turns of a run ended in [continue], and how many left a
    block. *)
Definition count_skipped (rs : list (option string)) : nat :=
  length (List.filter (fun r => match r with None => true | _ => false end) rs).

Definition count_blocks (rs : list (option string)) : nat :=
  length (List.filter (fun r => match r with Some _ => true | _ => false end) rs).

(** A value [.strip()] can be called on. *)
Definition is_str (v : pyval) : bool :=
  match v with
  | VStr _ => true
  | _ => false
  end.

(** The descriptor is a dict and the three values that lines 55-58 call
    [.strip()] on are strings. *)
Definition strippable_fields (event : pyval) : bool :=
  match event with
  | VDict d =>
      is_str (py_or (dict_get_or d "end_date" VNone)
                (dict_get_or d "start_date" (VStr "none"))) &&
      is_str (py_or (dict_get_or d "start_time" VNone) (VStr "")) &&
      is_str (py_or (dict_get_or d "end_time" VNone) (VStr ""))
  | _ => false
  end.

(** A text without a line break. *)
Definition one_line (s : string) : Prop := contains "010" s = false.

(** Lines put end to end, each closed by a line break. *)
Fixpoint text_lines (ls : list string) : string :=
  match ls with
  | [] => ""
  | l :: rest => l ++ nl ++ text_lines rest
  end.

(** How many lines of a text are exactly [l]. *)
Definition count_line (l s : string) : nat :=
  length (List.filter (String.eqb l) (split_lines s)).

(** The interval and the count of a recurrence dict render without a
    line break. *)
Definition clean_recurrence (recurrence : pyval) : Prop :=
  match recurrence with
  | VDict d =>
      one_line (py_str (dict_get_or d "interval" (VInt 1))) /\
      one_line (py_str (dict_get_or d "count" VNone))
  | _ => True
  end.

(** None of the texts that go into a block has a line break. *)
Definition clean_fields (local_timezone : string) (fs : fields) : Prop :=
  one_line (py_str (f_summary fs)) /\
  one_line (py_str (f_location fs)) /\
  one_line (py_str (f_description fs)) /\
  one_line (py_str (effective_timezone local_timezone (f_timezone fs))) /\
  clean_recurrence (f_recurrence fs).

(** [p] occurs in [s]. *)
Definition is_infix (p s : string) : Prop :=
  exists before after, s = before ++ p ++ after.

(** The descriptor carries a truthy [tz_conversion]. *)
Definition has_conversion (event : pyval) : bool :=
  match event with
  | VDict d => truthy (dict_get_or d "tz_conversion" (VStr ""))
  | _ => false
  end.

(** The line [extract_event] prints for such a descriptor. *)
Definition conversion_line (event : pyval) : api_line :=
  match event with
  | VDict d =>
      PrintConversion (py_str (dict_get_or d "tz_conversion" (VStr "")))
                      (py_str (dict_get_or d "summary" (VStr "")))
  | _ => PrintConversion "" ""
  end.

Definition is_dict (v : pyval) : bool :=
  match v with
  | VDict _ => true
  | _ => false
  end.

(** The character [c] does not occur in [s]. *)
Fixpoint no_char (c : ascii) (s : string) : bool :=
  match s with
  | EmptyString => true
  | String x r => negb (x =? c)%char && no_char c r
  end.

(** [j] is the part of [s] from its first opening brace to its last
    closing brace, the latter coming after the former. *)
Definition brace_span (s j : string) : Prop :=
  exists pre body post,
    s = pre ++ "{" ++ body ++ "}" ++ post /\
    no_char "{" pre = true /\
    no_char "}" post = true /\
    j = "{" ++ body ++ "}".

(** The service answers the request of [extract_event] with [raw]. *)
Definition service_replies (generate_content : service) (today : date)
    (self : API) (message raw : string) : Prop :=
  generate_content (default_model self)
    [("user", [generate_prompt self today ++ nl ++ message])] = Ok raw.

(** What [gemini_calendar] prints. *)
Definition banner (self : API) : api_line :=
  PrintGenerating (location self) (language self).

(** Sample data for [API.py]: an object, a service that always gives
    the same reply, and a decoder that knows one text. *)
Definition sample_api : API :=
  mkAPI "k" "Australia/Adelaide" "English" "gemini-2.5-flash".

Definition sample_today : date := mkDate 2025 3 10.

Definition constant_service (raw : string) : service :=
  fun _ _ => Ok raw.

Definition table_loads (j : string) (v : pyval) : string -> option pyval :=
  fun s => if (s =? j)%string then Some v else None.

Definition sample_talk : pyval :=
  VDict [("summary", VStr "Talk");
         ("tz_conversion", VStr "10:00 PST to 04:30 ACDT")].

Definition sample_lunch : pyval := VDict [("summary", VStr "Lunch")].

(* ================================================================== *)
(** * Basic facts about strings and the monad *)
(* ================================================================== *)

Lemma append_assoc (a b c : string) : (a ++ b) ++ c = a ++ (b ++ c).
Proof. induction a as [|x a IH]; simpl; [reflexivity | now rewrite IH]. Qed.

Lemma append_nil_r (a : string) : a ++ "" = a.
Proof. induction a as [|x a IH]; simpl; [reflexivity | now rewrite IH]. Qed.

Lemma Ok_inj {A} (a b : A) : Ok a = Ok b -> a = b.
Proof. now intros [= ->]. Qed.

Lemma bind_ok {A B} (m : M A) (k : A -> M B) out b :
  bind m k = (out, Ok b) ->
  exists o1 a o2, m = (o1, Ok a) /\ k a = (o2, Ok b) /\ out = (o1 ++ o2)%list.
Proof.
  unfold bind. destruct m as [o1 [a|e]]; [|discriminate].
  destruct (k a) as [o2 r] eqn:Hk. intros [= <- ->]. eauto 6.
Qed.

Lemma with_output_nil (w : World) : with_output w [] = w.
Proof. destruct w. unfold with_output. simpl. now rewrite app_nil_r. Qed.

(** One turn of the loop, case by case. *)
Lemma process_event_unfold db local_timezone event :
  process_event db local_timezone event =
  match extract_fields event with
  | Raise e => ([], Raise e)
  | Ok fs =>
      if is_none_sentinel (f_start_date fs)
      then ([SkipMissingStartDate (py_str (f_summary fs))], Ok None)
      else
        let timezone := effective_timezone local_timezone (f_timezone fs) in
        match pytz_timezone db timezone with
        | Raise e => ([], Raise e)
        | Ok tz =>
            match build_datetimes tz fs with
            | Raise ValueError =>
                ([SkipInvalidDate (py_str (f_summary fs))], Ok None)
            | Raise e => ([], Raise e)
            | Ok r =>
                match add_recurrence (compose_vevent fs timezone r)
                        (f_recurrence fs) with
                | Ok body => ([], Ok (Some (body ++ ("END:VEVENT" ++ nl))))
                | Raise e => ([], Raise e)
                end
            end
        end
  end.
Proof.
  unfold process_event, lift, bind.
  destruct (extract_fields event) as [fs|e]; [|reflexivity].
  destruct (is_none_sentinel (f_start_date fs)); [reflexivity|].
  cbv zeta.
  destruct (pytz_timezone db _) as [tz|e]; [|reflexivity].
  destruct (build_datetimes tz fs) as [r|[]]; try reflexivity.
  destruct (add_recurrence _ _); reflexivity.
Qed.

(** A block is emitted exactly when every stage of the turn succeeds. *)
Lemma process_event_emits db local_timezone event out blk :
  process_event db local_timezone event = (out, Ok (Some blk)) <->
  exists fs tz r body,
    extract_fields event = Ok fs /\
    is_none_sentinel (f_start_date fs) = false /\
    pytz_timezone db (effective_timezone local_timezone (f_timezone fs))
      = Ok tz /\
    build_datetimes tz fs = Ok r /\
    add_recurrence
      (compose_vevent fs
         (effective_timezone local_timezone (f_timezone fs)) r)
      (f_recurrence fs) = Ok body /\
    blk = body ++ ("END:VEVENT" ++ nl) /\ out = [].
Proof.
  rewrite process_event_unfold. split.
  - destruct (extract_fields event) as [fs|e]; [|discriminate].
    destruct (is_none_sentinel (f_start_date fs)) eqn:Hs; [discriminate|].
    cbv zeta.
    destruct (pytz_timezone db _) as [tz|e] eqn:Htz; [|discriminate].
    destruct (build_datetimes tz fs) as [r|[]] eqn:Hb; try discriminate.
    destruct (add_recurrence _ _) as [body|e] eqn:Hr; [|discriminate].
    intros [= <- <-]. exists fs, tz, r, body. auto 10.
  - intros (fs & tz & r & body & -> & -> & Htz & Hb & Hr & -> & ->).
    cbv zeta. now rewrite Htz, Hb, Hr.
Qed.

(** The loop over a concatenation. *)
Lemma for_events_app db local_timezone pre post acc :
  for_events db local_timezone (pre ++ post) acc =
  bind (for_events db local_timezone pre acc)
       (fun acc' => for_events db local_timezone post acc').
Proof.
  revert acc. induction pre as [|e pre IH]; intros acc; simpl.
  - unfold bind, ret. now destruct (for_events _ _ post acc).
  - unfold bind at 1 3.
    destruct (process_event db local_timezone e) as [o [[b|]|x]]; simpl.
    + rewrite IH. unfold bind.
      destruct (for_events _ _ pre _) as [o1 [a|x]]; simpl.
      * destruct (for_events _ _ post a). now rewrite app_assoc.
      * reflexivity.
    + rewrite IH. unfold bind.
      destruct (for_events _ _ pre _) as [o1 [a|x]]; simpl.
      * destruct (for_events _ _ post a). now rewrite app_assoc.
      * reflexivity.
    + reflexivity.
Qed.

(** The loop either raises or leaves the blocks of its turns, in order,
    after what was there before. *)
Lemma for_events_blocks db local_timezone evs acc out c :
  for_events db local_timezone evs acc = (out, Ok c) ->
  exists rs,
    Forall2 (turn_result db local_timezone) evs rs /\
    c = acc ++ join_blocks rs.
Proof.
  revert acc out. induction evs as [|e evs IH]; intros acc out; simpl.
  - intros [= <- <-]. exists []. split; [constructor|].
    simpl. now rewrite append_nil_r.
  - intros H. apply bind_ok in H as (o1 & r & o2 & He & Hrest & ->).
    destruct r as [b|].
    + apply IH in Hrest as (rs & Hall & ->).
      exists (Some b :: rs). split.
      * constructor; [now exists o1 | exact Hall].
      * simpl. now rewrite append_assoc.
    + apply IH in Hrest as (rs & Hall & ->).
      exists (None :: rs). split; [|reflexivity].
      constructor; [now exists o1 | exact Hall].
Qed.

Lemma for_events_complete db local_timezone evs rs acc :
  Forall2 (turn_result db local_timezone) evs rs ->
  exists out,
    for_events db local_timezone evs acc = (out, Ok (acc ++ join_blocks rs)).
Proof.
  intros H. revert acc. induction H as [|e r evs rs [o He] _ IH]; intros acc.
  - exists []. simpl. now rewrite append_nil_r.
  - simpl. rewrite He. unfold bind. destruct r as [b|]; simpl.
    + destruct (IH (acc ++ b)) as [o' ->].
      exists (o ++ o')%list. now rewrite append_assoc.
    + destruct (IH acc) as [o' ->]. now exists (o ++ o')%list.
Qed.

Lemma ics_document_list db local_timezone l :
  ics_document db local_timezone (VList l) =
  bind (for_events db local_timezone l ics_header)
       (fun ics_content => ret (ics_content ++ ics_footer)).
Proof. reflexivity. Qed.

Lemma ics_document_ok db local_timezone l out doc :
  ics_document db local_timezone (VList l) = (out, Ok doc) ->
  exists c, for_events db local_timezone l ics_header = (out, Ok c) /\
            doc = c ++ ics_footer.
Proof.
  rewrite ics_document_list. intros H.
  apply bind_ok in H as (o1 & c & o2 & Hf & Hr & ->).
  injection Hr as <- <-. exists c. now rewrite app_nil_r.
Qed.

(** The file holds the text exactly when the text could be built. *)
Lemma generate_ics_ok events filename w w' :
  generate_ics events filename w = (Ok tt, w') ->
  exists out doc,
    ics_document (zones w) (local_zone w) events = (out, Ok doc) /\
    files w' !! filename = Some doc.
Proof.
  unfold generate_ics.
  destruct (ics_document _ _ _) as [out [doc|e]]; [|discriminate].
  intros [= <-]. exists out, doc. split; [reflexivity|].
  simpl. apply lookup_insert_eq.
Qed.

Lemma generate_ics_raise events filename w e w' :
  generate_ics events filename w = (Raise e, w') ->
  files w' = files w /\
  exists out, ics_document (zones w) (local_zone w) events = (out, Raise e).
Proof.
  unfold generate_ics.
  destruct (ics_document _ _ _) as [out [doc|x]]; [discriminate|].
  intros [= <- <-]. split; [reflexivity | now exists out].
Qed.

(** What a successful extraction says about the descriptor. *)
Lemma extract_fields_inv event fs :
  extract_fields event = Ok fs ->
  exists d,
    event = VDict d /\
    f_summary fs = dict_get_or d "summary" (VStr "Unnamed Event") /\
    f_start_date fs = dict_get_or d "start_date" (VStr "none") /\
    py_strip (py_or (dict_get_or d "end_date" VNone) (f_start_date fs))
      = Ok (f_end_date fs) /\
    py_strip (py_or (dict_get_or d "start_time" VNone) (VStr ""))
      = Ok (f_start_time fs) /\
    py_strip (py_or (dict_get_or d "end_time" VNone) (VStr ""))
      = Ok (f_end_time fs) /\
    f_timezone fs = dict_get_or d "timezone" (VStr "none") /\
    f_location fs = dict_get_or d "location" (VStr "") /\
    f_description fs = dict_get_or d "description" (VStr "") /\
    f_recurrence fs = dict_get_or d "recurrence" VNone.
Proof.
  destruct event as [| | | | |d]; try discriminate.
  unfold extract_fields. simpl py_get. cbn [rbind].
  destruct (py_strip (py_or (dict_get_or d "end_date" VNone) _))
    as [ed|] eqn:Hed; [|discriminate].
  cbn [rbind].
  destruct (py_strip (py_or (dict_get_or d "start_time" VNone) _))
    as [st|] eqn:Hst; [|discriminate].
  cbn [rbind].
  destruct (py_strip (py_or (dict_get_or d "end_time" VNone) _))
    as [et|] eqn:Het; [|discriminate].
  cbn [rbind]. intros [= <-]. exists d. simpl. auto 12.
Qed.

(* ================================================================== *)
(** * The summary placeholder *)
(* ================================================================== *)

(** C6, counterexample: a descriptor whose summary is the empty string
    keeps the empty string; the placeholder is not substituted, and the
    block carries an empty [SUMMARY:] line. *)
Lemma empty_summary_is_kept :
  let event :=
    VDict [("summary", VStr ""); ("start_date", VStr "2025-03-10")] in
  (exists fs,
      extract_fields event = Ok fs /\
      f_summary fs = VStr "" /\
      f_summary fs <> VStr "Unnamed Event") /\
  process_event sample_zones "UTC" event =
    ([], Ok (Some ("BEGIN:VEVENT" ++ nl ++ "SUMMARY:" ++ nl ++
                   "DTSTART;VALUE=DATE:20250310" ++ nl ++
                   "DTEND;VALUE=DATE:20250311" ++ nl ++
                   "LOCATION:" ++ nl ++ "DESCRIPTION:" ++ nl ++
                   "END:VEVENT" ++ nl))).
Proof.
  split.
  - eexists. split; [reflexivity|]. split; [reflexivity | discriminate].
  - vm_compute. reflexivity.
Qed.

(** C6, as amended: the extracted summary is the placeholder
    ["Unnamed Event"] exactly when the descriptor has no [summary] key;
    when the key is there the summary is the supplied value as it is,
    the empty string included. *)
Theorem summary_defaults_only_when_absent d fs :
  extract_fields (VDict d) = Ok fs ->
  (dict_get d "summary" = None -> f_summary fs = VStr "Unnamed Event") /\
  (forall v, dict_get d "summary" = Some v -> f_summary fs = v).
Proof.
  intros H. apply extract_fields_inv in H as (d' & [= <-] & Hs & _).
  rewrite Hs. unfold dict_get_or.
  split; [intros -> | intros v ->]; reflexivity.
Qed.

Lemma summary_defaults_only_when_absent_witness :
  let d := [("start_date", VStr "2025-03-10")] in
  let fs := mkFields (VStr "Unnamed Event") (VStr "2025-03-10")
              "2025-03-10" "" "" (VStr "none") (VStr "") (VStr "") VNone in
  extract_fields (VDict d) = Ok fs /\
  dict_get d "summary" = None /\
  f_summary fs = VStr "Unnamed Event".
Proof.
  intros d fs. split; [reflexivity|]. split; [reflexivity|].
  apply (proj1 (summary_defaults_only_when_absent d fs eq_refl)).
  reflexivity.
Defined.

(* ================================================================== *)
(** * The shape of the input *)
(* ================================================================== *)



(* ================================================================== *)
(** * A null start date *)
(* ================================================================== *)

(** C10, at the failing input: a descriptor whose [start_date] is null
    and which has no [end_date] never reaches the missing-start-date
    check: line 55 calls [.strip()] on the null value, the turn raises
    [AttributeError], and the run ends without a file.  The sentinel
    string in the same place is skipped, and so is the null value once
    an [end_date] is given. *)
Theorem null_start_date_raises db local_timezone filename w :
  process_event db local_timezone (VDict [("start_date", VNone)])
    = ([], Raise AttributeError) /\
  generate_ics (VList [VDict [("start_date", VNone)]]) filename w
    = (Raise AttributeError, w) /\
  process_event db local_timezone (VDict [("start_date", VStr "none")])
    = ([SkipMissingStartDate "Unnamed Event"], Ok None) /\
  process_event db local_timezone
      (VDict [("start_date", VNone); ("end_date", VStr "2025-03-10")])
    = ([SkipMissingStartDate "Unnamed Event"], Ok None).
Proof.
  repeat split; try reflexivity.
  unfold generate_ics. simpl. now rewrite with_output_nil.
Qed.

(* ================================================================== *)
(** * Skipped events and the frame of the document *)
(* ================================================================== *)

Lemma turns_have_results db local_timezone evs :
  Forall (fun e => exists r, turn_result db local_timezone e r) evs ->
  exists rs, Forall2 (turn_result db local_timezone) evs rs.
Proof.
  induction 1 as [|e evs [r Hr] _ [rs IH]].
  - exists []. constructor.
  - exists (r :: rs). now constructor.
Qed.

(** A turn that ends in [continue] leaves no trace in the text. *)
Lemma skipped_turn_leaves_text db local_timezone pre ev post out acc :
  process_event db local_timezone ev = (out, Ok None) ->
  snd (for_events db local_timezone (pre ++ ev :: post) acc) =
  snd (for_events db local_timezone (pre ++ post) acc).
Proof.
  intros Hev. rewrite !for_events_app. unfold bind.
  destruct (for_events db local_timezone pre acc) as [o [a|e]];
    [|reflexivity].
  simpl for_events. rewrite Hev. unfold bind.
  destruct (for_events db local_timezone post a). reflexivity.
Qed.

Lemma snd_ics_document_list db local_timezone l :
  snd (ics_document db local_timezone (VList l)) =
  match snd (for_events db local_timezone l ics_header) with
  | Ok c => Ok (c ++ ics_footer)
  | Raise e => Raise e
  end.
Proof.
  rewrite ics_document_list. unfold bind, ret.
  now destruct (for_events db local_timezone l ics_header) as [o [c|e]].
Qed.



(* ================================================================== *)
(** * Order of the blocks *)
(* ================================================================== *)



(* ================================================================== *)
(** * Timezone resolution comes first *)
(* ================================================================== *)

(** C9.  Once a descriptor has passed the missing-start-date check, its
    zone name is looked up before anything is parsed: when the name
    (the descriptor's own, or the local one standing in for ["none"]) is
    not in the database, the turn raises [UnknownTimeZoneError] whatever
    the start time and the dates are, and with it the whole run: the
    descriptors after it are not looked at and no file is written. *)
Theorem unknown_timezone_aborts_run db local_timezone pre ev post fs name :
  Forall (fun e => exists r, turn_result db local_timezone e r) pre ->
  extract_fields ev = Ok fs ->
  is_none_sentinel (f_start_date fs) = false ->
  effective_timezone local_timezone (f_timezone fs) = VStr name ->
  db name = None ->
  process_event db local_timezone ev = ([], Raise UnknownTimeZoneError) /\
  forall filename w,
    zones w = db -> local_zone w = local_timezone ->
    fst (generate_ics (VList (pre ++ ev :: post)) filename w)
      = Raise UnknownTimeZoneError /\
    files (snd (generate_ics (VList (pre ++ ev :: post)) filename w))
      = files w.
Proof.
  intros Hpre Hx Hs Htz Hdb.
  assert (Hev : process_event db local_timezone ev =
                ([], Raise UnknownTimeZoneError)).
  { rewrite process_event_unfold, Hx, Hs. cbv zeta. rewrite Htz.
    simpl. now rewrite Hdb. }
  split; [exact Hev|].
  intros filename w <- <-.
  apply turns_have_results in Hpre as [rs Hrs].
  destruct (for_events_complete _ _ _ _ ics_header Hrs) as [o Ho].
  assert (Hdoc : ics_document (zones w) (local_zone w)
                   (VList (pre ++ ev :: post)) =
                 (o, Raise UnknownTimeZoneError)).
  { rewrite ics_document_list, for_events_app, Ho. cbn [bind].
    cbn [for_events]. rewrite Hev. cbn [bind]. now rewrite app_nil_r. }
  unfold generate_ics. rewrite Hdoc. split; reflexivity.
Qed.

Lemma unknown_timezone_aborts_run_witness :
  let first := VDict [("summary", VStr "A"); ("start_date", VStr "2025-03-10")] in
  let bad := VDict [("summary", VStr "B"); ("start_date", VStr "10/03/2025");
                    ("timezone", VStr "Mars/Olympus")] in
  let events := VList ([first] ++ bad :: [first]) in
  process_event sample_zones "Australia/Adelaide" bad
    = ([], Raise UnknownTimeZoneError) /\
  fst (generate_ics events "calendar.ics" sample_world)
    = Raise UnknownTimeZoneError /\
  files (snd (generate_ics events "calendar.ics" sample_world))
    = files sample_world.
Proof.
  intros first bad events.
  assert (Hpre : Forall
            (fun e => exists r,
                 turn_result sample_zones "Australia/Adelaide" e r) [first])
    by (repeat constructor; eexists; eexists; reflexivity).
  destruct (unknown_timezone_aborts_run sample_zones "Australia/Adelaide"
              [first] bad [first]
              (mkFields (VStr "B") (VStr "10/03/2025") "10/03/2025" "" ""
                 (VStr "Mars/Olympus") (VStr "") (VStr "") VNone)
              "Mars/Olympus" Hpre eq_refl eq_refl eq_refl eq_refl)
    as [Hturn Hrun].
  split; [exact Hturn|].
  exact (Hrun "calendar.ics" sample_world eq_refl eq_refl).
Defined.

(* ================================================================== *)
(** * Determinism *)
(* ================================================================== *)

Lemma zones_agree_refl db : zones_agree db db.
Proof.
  intros name. destruct (db name) as [z|]; [|exact I].
  intros dt. now destruct (z dt).
Qed.

Lemma localize_agree (z1 z2 : zone) dt :
  match z1 dt, z2 dt with
  | Ok _, Ok _ => True
  | Raise e1, Raise e2 => e1 = e2
  | _, _ => False
  end ->
  match localize z1 dt, localize z2 dt with
  | Ok a1, Ok a2 => wall a1 = wall a2
  | Raise e1, Raise e2 => e1 = e2
  | _, _ => False
  end.
Proof. unfold localize. destruct (z1 dt), (z2 dt); simpl; auto. Qed.

(** The [try] block gives, under zones that agree, the same exception or
    values that render to the same block. *)
Lemma build_datetimes_agree (z1 z2 : zone) fs :
  (forall dt,
      match z1 dt, z2 dt with
      | Ok _, Ok _ => True
      | Raise e1, Raise e2 => e1 = e2
      | _, _ => False
      end) ->
  match build_datetimes z1 fs, build_datetimes z2 fs with
  | Ok r1, Ok r2 => forall tz, compose_vevent fs tz r1 = compose_vevent fs tz r2
  | Raise e1, Raise e2 => e1 = e2
  | _, _ => False
  end.
Proof.
  intros Hz. unfold build_datetimes.
  destruct (f_start_time fs =? "")%string.
  - destruct (py_strptime_date (f_start_date fs)); cbn [rbind]; [|reflexivity].
    destruct (py_strptime_date (VStr (f_end_date fs))); cbn [rbind];
      [|reflexivity].
    destruct (date_add_one_day _); cbn [rbind]; reflexivity.
  - cbv zeta.
    destruct (py_strptime_datetime (py_str (f_start_date fs) ++ _))
      as [sn|]; cbn [rbind]; [|reflexivity].
    pose proof (localize_agree z1 z2 sn (Hz sn)) as Hs.
    destruct (localize z1 sn) as [a1|], (localize z2 sn) as [a2|];
      cbn [rbind]; try assumption; try contradiction.
    destruct (py_strptime_datetime (f_end_date fs ++ _))
      as [en|]; cbn [rbind]; [|reflexivity].
    pose proof (localize_agree z1 z2 en (Hz en)) as He.
    destruct (localize z1 en) as [b1|], (localize z2 en) as [b2|];
      cbn [rbind]; try assumption; try contradiction.
    intros tz. unfold compose_vevent, strftime_datetime.
    now rewrite Hs, He.
Qed.

Lemma process_event_agree db1 db2 local_timezone event :
  zones_agree db1 db2 ->
  process_event db1 local_timezone event =
  process_event db2 local_timezone event.
Proof.
  intros Hdb. rewrite !process_event_unfold.
  destruct (extract_fields event) as [fs|]; [|reflexivity].
  destruct (is_none_sentinel (f_start_date fs)); [reflexivity|].
  cbv zeta.
  destruct (effective_timezone local_timezone (f_timezone fs))
    as [| | |name| |]; try reflexivity.
  unfold pytz_timezone. specialize (Hdb name).
  destruct (db1 name) as [z1|], (db2 name) as [z2|];
    try contradiction; [|reflexivity].
  pose proof (build_datetimes_agree z1 z2 fs Hdb) as Hb.
  destruct (build_datetimes z1 fs) as [r1|e1],
           (build_datetimes z2 fs) as [r2|e2]; try contradiction.
  - now rewrite Hb.
  - now subst.
Qed.

Lemma ics_document_agree db1 db2 local_timezone events :
  zones_agree db1 db2 ->
  ics_document db1 local_timezone events =
  ics_document db2 local_timezone events.
Proof.
  intros Hdb. unfold ics_document.
  destruct (unwrap_events events) as [| | | |l|]; try reflexivity.
  f_equal. generalize ics_header.
  induction l as [|e l IH]; intros acc; [reflexivity|].
  cbn [for_events]. rewrite (process_event_agree db1 db2 _ _ Hdb).
  unfold bind. destruct (process_event db2 local_timezone e) as [o [[b|]|x]];
    now rewrite ?IH.
Qed.

(** C8.  Two runs on the same input, in worlds that have the same local
    zone and databases that agree, end the same way and, when they
    finish, leave the same text in the file, whatever the clock, the
    console and the files of the two worlds were before, and whatever
    UTC offsets the two databases give. *)
Theorem generate_ics_is_deterministic events filename w1 w2 :
  local_zone w1 = local_zone w2 ->
  zones_agree (zones w1) (zones w2) ->
  fst (generate_ics events filename w1) =
  fst (generate_ics events filename w2) /\
  (fst (generate_ics events filename w1) = Ok tt ->
   exists doc,
     snd (ics_document (zones w1) (local_zone w1) events) = Ok doc /\
     files (snd (generate_ics events filename w1)) !! filename = Some doc /\
     files (snd (generate_ics events filename w2)) !! filename = Some doc).
Proof.
  intros Hl Hz. unfold generate_ics.
  rewrite <- Hl, <- (ics_document_agree _ _ _ _ Hz).
  destruct (ics_document (zones w1) (local_zone w1) events) as [out [doc|e]].
  - split; [reflexivity|]. intros _. exists doc.
    split; [reflexivity|]. split; apply lookup_insert_eq.
  - split; [reflexivity | discriminate].
Qed.

Lemma generate_ics_is_deterministic_witness :
  let events :=
    VList [VDict [("summary", VStr "Standup");
                  ("start_date", VStr "2025-03-10");
                  ("start_time", VStr "09:00"); ("end_time", VStr "09:15")]] in
  let w1 := sample_world in
  let w2 :=
    mkWorld "Australia/Adelaide"
      (fun name =>
         if (name =? "UTC")%string then Some (fun _ => Ok 0)
         else if (name =? "Australia/Adelaide")%string
              then Some (fun _ => Ok 630)
              else None)
      1762250000 [FileSaved "old.ics"] {["calendar.ics" := "stale"]} in
  fst (generate_ics events "calendar.ics" w1) =
  fst (generate_ics events "calendar.ics" w2) /\
  (fst (generate_ics events "calendar.ics" w1) = Ok tt ->
   exists doc,
     snd (ics_document (zones w1) (local_zone w1) events) = Ok doc /\
     files (snd (generate_ics events "calendar.ics" w1)) !! "calendar.ics"
       = Some doc /\
     files (snd (generate_ics events "calendar.ics" w2)) !! "calendar.ics"
       = Some doc).
Proof.
  intros events w1 w2.
  apply (generate_ics_is_deterministic events "calendar.ics" w1 w2).
  - reflexivity.
  - intros name. simpl. unfold sample_zones.
    destruct (name =? "UTC")%string; [intros dt; exact I|].
    destruct (name =? "Australia/Adelaide")%string; [intros dt|]; exact I.
Defined.

(* ================================================================== *)
(** * Lines of a text *)
(* ================================================================== *)

Lemma contains_app c a b :
  contains c (a ++ b) = contains c a || contains c b.
Proof.
  induction a as [|x a IH]; simpl; [reflexivity|].
  now rewrite IH, orb_assoc.
Qed.

Lemma string_of_uint_no_newline d :
  contains "010" (NilEmpty.string_of_uint d) = false.
Proof. induction d; simpl; auto. Qed.

Lemma str_of_Z_no_newline z : contains "010" (str_of_Z z) = false.
Proof.
  unfold str_of_Z, NilZero.string_of_int, NilZero.string_of_uint.
  destruct (Z.to_int z) as [d|d].
  - destruct d; try reflexivity;
      apply (string_of_uint_no_newline (_ d)) || exact (string_of_uint_no_newline _).
  - simpl. destruct d; try reflexivity;
      exact (string_of_uint_no_newline _).
Qed.

Lemma split_lines_nonempty s : split_lines s <> [].
Proof.
  destruct s as [|c r]; simpl; [discriminate|].
  destruct (c =? "010")%char; [discriminate|].
  destruct (split_lines r); discriminate.
Qed.

Lemma split_lines_app_nl a b :
  split_lines (a ++ nl ++ b) = (split_lines a ++ split_lines b)%list.
Proof.
  induction a as [|c a IH]; [reflexivity|].
  change (String c a ++ nl ++ b) with (String c (a ++ nl ++ b)).
  cbn [split_lines]. rewrite IH.
  destruct (c =? "010")%char; [reflexivity|].
  pose proof (split_lines_nonempty a).
  destruct (split_lines a); [contradiction | reflexivity].
Qed.

Lemma split_lines_single s :
  contains "010" s = false -> split_lines s = [s].
Proof.
  induction s as [|c s IH]; simpl; [reflexivity|].
  intros H. apply orb_false_elim in H as [Hc Hs].
  rewrite Hc, (IH Hs). reflexivity.
Qed.

Lemma rrule_lines_app_nl a b :
  rrule_lines (a ++ nl ++ b) = (rrule_lines a ++ rrule_lines b)%list.
Proof. unfold rrule_lines. now rewrite split_lines_app_nl, List.filter_app. Qed.

Lemma compose_vevent_ends_with_newline fs tz r :
  exists base0, compose_vevent fs tz r = base0 ++ nl.
Proof.
  destruct r; unfold compose_vevent;
    eexists; rewrite <- !append_assoc; reflexivity.
Qed.

(* ================================================================== *)
(** * Facts about [strptime], [strftime] and dates *)
(* ================================================================== *)

Lemma code_chr k : 0 <= k < 256 -> code (chr k) = k.
Proof.
  intros Hk. unfold code, chr. rewrite N_ascii_embedding; lia.
Qed.

Lemma digit_val_digit_char n : digit_val (digit_char n) = Some (n mod 10).
Proof.
  pose proof (Z.mod_pos_bound n 10 ltac:(lia)) as Hb.
  unfold digit_val, digit_char. rewrite code_chr by lia.
  assert ((48 <=? 48 + n mod 10) && (48 + n mod 10 <=? 57) = true) as ->
    by (apply andb_true_intro; split; lia).
  f_equal. lia.
Qed.

Lemma digit_not_space c v : digit_val c = Some v -> is_space c = false.
Proof.
  unfold digit_val, is_space.
  destruct ((48 <=? code c) && (code c <=? 57)) eqn:H; [|discriminate].
  intros _. apply andb_prop in H as [H1 H2].
  apply orb_false_intro; apply andb_false_intro2; lia.
Qed.

Lemma has_space_app a b : has_space (a ++ b) = has_space a || has_space b.
Proof.
  induction a as [|c a IH]; simpl; [reflexivity|].
  now rewrite IH, orb_assoc.
Qed.

Lemma lstrip_no_leading_space c r :
  is_space c = false -> lstrip (String c r) = String c r.
Proof. intros H. simpl. now rewrite H. Qed.

Lemma rstrip_no_space s : has_space s = false -> rstrip s = s.
Proof.
  induction s as [|c s IH]; simpl; [reflexivity|].
  intros H. apply orb_false_elim in H as [Hc Hs].
  rewrite (IH Hs), Hc. now destruct s.
Qed.

Lemma rstrip_app_tight a b :
  b <> "" -> rstrip b = b -> rstrip (a ++ b) = a ++ b.
Proof.
  intros Hb Hr. induction a as [|c a IH]; simpl; [exact Hr|].
  rewrite IH. destruct (a ++ b) eqn:Hab; [|reflexivity].
  destruct a; [simpl in Hab; contradiction | discriminate].
Qed.

(** The digits read by [take_digits] are a prefix without spaces, and
    what follows does not start with a digit. *)
Lemma take_digits_split s ds r :
  take_digits s = (ds, r) ->
  exists p,
    s = p ++ r /\ has_space p = false /\
    (ds <> [] -> p <> "") /\
    match r with
    | String c _ => digit_val c = None
    | EmptyString => True
    end.
Proof.
  revert ds r. induction s as [|c s IH]; intros ds r; simpl.
  - intros [= <- <-]. exists "". repeat split; auto; congruence.
  - destruct (digit_val c) as [v|] eqn:Hc.
    + destruct (take_digits s) as [ds' r'] eqn:Ht. intros [= <- <-].
      destruct (IH _ _ eq_refl) as (p & -> & Hp & _ & Hr).
      exists (String c p). simpl. rewrite Hp, (digit_not_space _ _ Hc).
      repeat split; auto; discriminate.
    + intros [= <- <-]. exists "". simpl. rewrite Hc.
      repeat split; auto; congruence.
Qed.

Lemma digits_field_split lo_len hi_len lo hi s v r :
  digits_field lo_len hi_len lo hi s = Some (v, r) ->
  (1 <= lo_len)%nat ->
  exists p, s = p ++ r /\ has_space p = false /\ p <> "".
Proof.
  unfold digits_field. destruct (take_digits s) as [ds r'] eqn:Ht.
  destruct (_ && _) eqn:Hc; [|discriminate]. intros [= <- <-] Hlen.
  apply take_digits_split in Ht as (p & -> & Hp & Hne & _).
  exists p. repeat split; auto. apply Hne.
  repeat (apply andb_prop in Hc as [Hc ?]).
  apply Nat.leb_le in Hc. destruct ds; [simpl in Hc; lia | discriminate].
Qed.

Lemma expect_split c s r : expect c s = Some r -> s = String c r.
Proof.
  destruct s as [|a s]; simpl; [discriminate|].
  destruct (a =? c)%char eqn:H; [|discriminate].
  apply Ascii.eqb_eq in H as ->. now intros [= ->].
Qed.

(** The text matched by ["%Y-%m-%d"] starts with a character that is
    not a space and ends with a run of digits. *)
Lemma match_ymd_split s y m d r :
  match_ymd s = Some (y, m, d, r) ->
  exists c0 p q,
    s = String c0 p ++ q ++ r /\ is_space c0 = false /\
    q <> "" /\ has_space q = false.
Proof.
  unfold match_ymd.
  destruct (re_Y s) as [[y' r1]|] eqn:HY; [|discriminate].
  destruct (expect "-" r1) as [r2|] eqn:H1; [|discriminate].
  destruct (re_m r2) as [[m' r3]|] eqn:Hm; [|discriminate].
  destruct (expect "-" r3) as [r4|] eqn:H2; [|discriminate].
  destruct (re_d r4) as [[d' r5]|] eqn:Hd; [|discriminate].
  intros [= <- <- <- <-].
  apply digits_field_split in HY as (pY & -> & HpY & HneY); [|lia].
  apply expect_split in H1 as ->.
  apply digits_field_split in Hm as (pm & -> & _ & _); [|lia].
  apply expect_split in H2 as ->.
  assert (Hq : exists b q, r4 = b ++ q ++ r5 /\ q <> "" /\ has_space q = false).
  { unfold re_d in Hd. destruct r4 as [|a r4'].
    - apply digits_field_split in Hd as (q & -> & Hq & Hne); [|lia].
      exists "", q. auto.
    - destruct (Ascii.eqb_spec a " ") as [->|Hne'].
      + apply digits_field_split in Hd as (q & -> & Hq & Hne); [|lia].
        exists " ", q. auto.
      + assert (Hd' : digits_field 1 2 1 31 (String a r4') = Some (d', r5)).
        { destruct a as [[] [] [] [] [] [] [] []]; try exact Hd.
          now destruct Hne'. }
        apply digits_field_split in Hd' as (q & -> & Hq & Hne); [|lia].
        exists "", q. auto. }
  destruct Hq as (b & q & -> & Hne & Hq).
  destruct pY as [|c0 pY]; [contradiction|].
  simpl in HpY. apply orb_false_elim in HpY as [Hc0 _].
  exists c0, (pY ++ String "-" (pm ++ String "-" b)), q.
  repeat split; auto.
  simpl. f_equal. rewrite !append_assoc. simpl.
  now rewrite !append_assoc.
Qed.

(** A text that parses as a date has no space around it. *)
Lemma strptime_date_stripped s d : strptime_date s = Some d -> strip s = s.
Proof.
  unfold strptime_date.
  destruct (match_ymd s) as [[[[y m] dd] r]|] eqn:H; [|discriminate].
  destruct r; [|discriminate]. intros _.
  apply match_ymd_split in H as (c0 & p & q & -> & Hc0 & Hne & Hq).
  unfold strip. rewrite append_nil_r.
  rewrite rstrip_app_tight; auto using rstrip_no_space.
  simpl. now rewrite Hc0.
Qed.

Lemma strptime_date_valid s d : strptime_date s = Some d -> valid_date d = true.
Proof.
  unfold strptime_date, make_date.
  destruct (match_ymd s) as [[[[y m] dd] r]|]; [|discriminate].
  destruct r; [|discriminate].
  destruct (valid_date (mkDate y m dd)) eqn:H; [|discriminate].
  now intros [= <-].
Qed.

Lemma valid_date_bounds d :
  valid_date d = true ->
  1 <= year d <= 9999 /\ 1 <= month d <= 12 /\
  1 <= day d <= days_in_month (year d) (month d).
Proof.
  unfold valid_date, MINYEAR, MAXYEAR. intros H.
  repeat (apply andb_prop in H as [H ?]). lia.
Qed.

Lemma days_in_month_bounds y m : 28 <= days_in_month y m <= 31.
Proof.
  unfold days_in_month.
  destruct (m =? 2); [destruct (is_leap y); lia|].
  destruct (_ || _); lia.
Qed.

Lemma days_before_month_succ y m :
  1 <= m ->
  days_before_month y (m + 1) = days_before_month y m + days_in_month y m.
Proof.
  intros Hm. unfold days_before_month.
  replace (Z.to_nat (m + 1 - 1)) with (S (Z.to_nat (m - 1))) by lia.
  cbn [days_before_month_upto]. do 2 f_equal. lia.
Qed.

Lemma days_before_year_succ y :
  days_before_year (y + 1) =
  days_before_year y + 365 + (if is_leap y then 1 else 0).
Proof.
  unfold days_before_year, is_leap. cbv zeta.
  replace (y + 1 - 1) with y by lia.
  destruct (y mod 4 =? 0) eqn:H4, (y mod 100 =? 0) eqn:H100,
           (y mod 400 =? 0) eqn:H400; cbn [andb orb negb];
    Z.to_euclidean_division_equations; lia.
Qed.

Lemma days_before_december y :
  days_before_month y 12 + 31 = 365 + (if is_leap y then 1 else 0).
Proof.
  unfold days_before_month. change (Z.to_nat (12 - 1)) with 11%nat.
  cbn [days_before_month_upto]. unfold days_in_month.
  generalize (is_leap y). intros []; reflexivity.
Qed.

(** The day after a valid date is a valid date, one day later. *)
Lemma date_add_one_day_next d d' :
  valid_date d = true ->
  date_add_one_day d = Ok d' ->
  valid_date d' = true /\ toordinal d' = toordinal d + 1.
Proof.
  intros Hv. pose proof (valid_date_bounds d Hv) as (Hy & Hm & Hd).
  unfold date_add_one_day, MAXYEAR.
  destruct (day d <? days_in_month (year d) (month d)) eqn:H1.
  - intros [= <-]. split.
    + unfold valid_date, MINYEAR, MAXYEAR. cbn [year month day].
      repeat (apply andb_true_intro; split); lia.
    + unfold toordinal. cbn [year month day]. lia.
  - destruct (month d <? 12) eqn:H2.
    + intros [= <-]. split.
      * pose proof (days_in_month_bounds (year d) (month d + 1)).
        unfold valid_date, MINYEAR, MAXYEAR. cbn [year month day].
        repeat (apply andb_true_intro; split); lia.
      * unfold toordinal. cbn [year month day].
        rewrite days_before_month_succ by lia. lia.
    + destruct (year d <? 9999) eqn:H3; [|discriminate].
      intros [= <-]. split.
      * unfold valid_date, MINYEAR, MAXYEAR. cbn [year month day].
        pose proof (days_in_month_bounds (year d + 1) 1).
        repeat (apply andb_true_intro; split); lia.
      * unfold toordinal. cbn [year month day].
        rewrite days_before_year_succ.
        assert (month d = 12) as Hm12 by lia.
        pose proof (days_before_december (year d)) as Hdec.
        rewrite Hm12 in *.
        assert (day d = 31) as ->.
        { unfold days_in_month in Hd, H1. cbn in Hd, H1. lia. }
        change (days_before_month (year d + 1) 1) with 0. lia.
Qed.

(** The text of [%Y] for a year that [datetime] admits: the digits of
    the year, four of them exactly from the year 1000 on. *)
Lemma strftime_Y_digits y :
  1 <= y <= 9999 ->
  exists ds,
    take_digits (strftime_Y y) = (ds, "") /\ number ds = y /\
    (length ds = 4%nat <-> 1000 <= y).
Proof.
  intros Hy.
  assert (Hall :
    forallb
      (fun n =>
         match take_digits (strftime_Y (Z.of_nat n)) with
         | (ds, EmptyString) =>
             (number ds =? Z.of_nat n) &&
             Bool.eqb (length ds =? 4)%nat (1000 <=? Z.of_nat n)
         | _ => false
         end) (seq 1 (Z.to_nat 9999)) = true) by (vm_compute; reflexivity).
  rewrite List.forallb_forall in Hall.
  specialize (Hall (Z.to_nat y)). rewrite Z2Nat.id in Hall by lia.
  assert (Hin : In (Z.to_nat y) (seq 1 (Z.to_nat 9999))) by (apply List.in_seq; lia).
  specialize (Hall Hin).
  destruct (take_digits (strftime_Y y)) as [ds [|c r]]; [|discriminate].
  apply andb_prop in Hall as [Hn Hl].
  exists ds. split; [reflexivity|]. split; [lia|].
  apply Bool.eqb_prop in Hl.
  destruct (1000 <=? y) eqn:Hk; split; intros H; try lia.
  - now apply Nat.eqb_eq.
  - apply Nat.eqb_eq in H. congruence.
Qed.

Lemma strftime_Y_pad4 y : 1000 <= y <= 9999 -> strftime_Y y = pad4 y.
Proof.
  intros Hy.
  assert (Hall :
    forallb
      (fun n => (strftime_Y (Z.of_nat n) =? pad4 (Z.of_nat n))%string)
      (seq (Z.to_nat 1000) (Z.to_nat 9000)) = true) by (vm_compute; reflexivity).
  rewrite List.forallb_forall in Hall.
  specialize (Hall (Z.to_nat y)). rewrite Z2Nat.id in Hall by lia.
  apply String.eqb_eq, Hall, List.in_seq. lia.
Qed.

Lemma take_digits_all_app a b da :
  take_digits a = (da, "") ->
  take_digits (a ++ b) =
    ((da ++ fst (take_digits b))%list, snd (take_digits b)).
Proof.
  revert da. induction a as [|c a IH]; intros da; cbn [take_digits String.append].
  - intros [= <-]. now destruct (take_digits b).
  - destruct (digit_val c) as [v|]; [|discriminate].
    destruct (take_digits a) as [da' r'] eqn:Ha. intros [= <- ->].
    now rewrite (IH _ eq_refl).
Qed.

Lemma number_app ds es :
  number (ds ++ es) = fold_left (fun acc d => 10 * acc + d) es (number ds).
Proof. unfold number. apply fold_left_app. Qed.

(** [strftime('%Y%m%d')] of a valid date: digits that read as the number
    year * 10000 + month * 100 + day, eight of them (YYYYMMDD) exactly
    from the year 1000 on. *)
Lemma strftime_date_digits d :
  valid_date d = true ->
  exists ds,
    take_digits (strftime_date d) = (ds, "") /\
    number ds = year d * 10000 + month d * 100 + day d /\
    (length ds = 8%nat <-> 1000 <= year d).
Proof.
  intros Hv. pose proof (valid_date_bounds d Hv) as (Hy & Hm & Hd).
  pose proof (days_in_month_bounds (year d) (month d)).
  destruct (strftime_Y_digits (year d) Hy) as (dy & Hdy & Hn & Hl).
  unfold strftime_date. rewrite (take_digits_all_app _ _ _ Hdy).
  unfold pad2. cbn [String.append take_digits].
  rewrite !digit_val_digit_char. cbn [take_digits fst snd].
  eexists. split; [reflexivity|].
  rewrite number_app, length_app, Hn. cbn [fold_left length]. split.
  - Z.to_euclidean_division_equations; lia.
  - rewrite <- Hl. lia.
Qed.

(** From the year 1000 on the text is YYYYMMDD. *)
Lemma strftime_date_padded d :
  1000 <= year d <= 9999 ->
  strftime_date d = pad4 (year d) ++ pad2 (month d) ++ pad2 (day d).
Proof. intros Hy. unfold strftime_date. now rewrite strftime_Y_pad4. Qed.

(* ================================================================== *)
(** * All-day events *)
(* ================================================================== *)

(** The recurrence step only ever adds text at the end. *)
Lemma add_recurrence_extends base rec body :
  add_recurrence base rec = Ok body -> exists rr, body = base ++ rr.
Proof.
  unfold add_recurrence. destruct (truthy rec).
  - destruct (py_get rec "frequency" _) as [f|]; [|discriminate].
    cbn [rbind].
    destruct (py_get rec "interval" _) as [i|]; [|discriminate].
    cbn [rbind].
    destruct (py_get rec "count" _) as [c|]; [|discriminate].
    cbn [rbind]. destruct (known_frequency _).
    + intros [= <-]. eexists. reflexivity.
    + intros [= <-]. exists "". now rewrite append_nil_r.
  - intros [= <-]. exists "". now rewrite append_nil_r.
Qed.

(** An all-day turn whose zone resolves, whose dates parse and whose end
    date is before 9999-12-31 does emit its block. *)
Lemma all_day_turn_emits db local_timezone ev fs s tz d1 d2 d2' body :
  extract_fields ev = Ok fs ->
  f_start_time fs = "" ->
  f_start_date fs = VStr s ->
  is_none_sentinel (VStr s) = false ->
  pytz_timezone db (effective_timezone local_timezone (f_timezone fs))
    = Ok tz ->
  strptime_date s = Some d1 ->
  strptime_date (f_end_date fs) = Some d2 ->
  date_add_one_day d2 = Ok d2' ->
  add_recurrence
    (compose_vevent fs (effective_timezone local_timezone (f_timezone fs))
       (AllDay d1 d2'))
    (f_recurrence fs) = Ok body ->
  process_event db local_timezone ev =
    ([], Ok (Some (body ++ "END:VEVENT" ++ nl))).
Proof.
  intros Hx Hst Hsd Hs Htz H1 H2 H3 Hr.
  apply process_event_emits. exists fs, tz, (AllDay d1 d2'), body.
  rewrite Hsd. repeat split; auto.
  unfold build_datetimes. rewrite Hst, Hsd. cbn [String.eqb].
  unfold py_strptime_date. rewrite H1, H2. cbn [rbind]. now rewrite H3.
Qed.




(* ================================================================== *)
(** * Timed events: how ["%Y-%m-%d %H:%M"] reads its text *)
(* ================================================================== *)

Lemma last_word_app a b :
  has_space b = true -> last_word (a ++ b) = last_word b.
Proof.
  intros Hb. induction a as [|c a IH]; [reflexivity|].
  cbn [String.append last_word].
  now rewrite has_space_app, Hb, orb_true_r.
Qed.

Lemma last_word_cons c r :
  last_word (String c r) =
  if has_space r then last_word r else if is_space c then r else String c r.
Proof. reflexivity. Qed.

Lemma last_word_after_space a r :
  is_space a = true -> has_space (lstrip r) = false ->
  last_word (String a r) = lstrip r.
Proof.
  revert a. induction r as [|b r IH]; intros a Ha Hr.
  - simpl. now rewrite Ha.
  - rewrite last_word_cons. cbn [lstrip has_space] in *.
    destruct (is_space b) eqn:Hb.
    + cbn [orb]. exact (IH b Hb Hr).
    + cbn [has_space] in Hr. rewrite Hb in Hr. cbn [orb] in *.
      now rewrite Hr, Ha.
Qed.

Lemma re_spaces_split r r' :
  re_spaces r = Some r' ->
  exists a r0, r = String a r0 /\ is_space a = true /\ r' = lstrip r0.
Proof.
  destruct r as [|a r0]; simpl; [discriminate|].
  destruct (is_space a) eqn:Ha; [|discriminate].
  intros [= <-]. eauto.
Qed.

Lemma match_hm_no_space r h mi :
  match_hm r = Some (h, mi, "") -> has_space r = false.
Proof.
  unfold match_hm.
  destruct (re_H r) as [[h' r1]|] eqn:HH; [|discriminate].
  destruct (expect ":" r1) as [r2|] eqn:He; [|discriminate].
  destruct (re_M r2) as [[m' r3]|] eqn:HM; [|discriminate].
  intros [= <- <- ->].
  apply digits_field_split in HH as (p1 & -> & Hp1 & _); [|lia].
  apply expect_split in He as ->.
  apply digits_field_split in HM as (p2 & -> & Hp2 & _); [|lia].
  rewrite has_space_app, Hp1. cbn [has_space orb].
  now rewrite has_space_app, Hp2.
Qed.

(** The stages of a successful ["%Y-%m-%d %H:%M"] parse. *)
Lemma strptime_datetime_inv s dt :
  strptime_datetime s = Some dt ->
  exists y m d r r' h mi dd,
    match_ymd s = Some (y, m, d, r) /\
    re_spaces r = Some r' /\
    match_hm r' = Some (h, mi, "") /\
    make_date y m d = Some dd /\
    dt = mkDatetime dd h mi 0.
Proof.
  unfold strptime_datetime.
  destruct (match_ymd s) as [[[[y m] d] r]|] eqn:Hd; [|discriminate].
  destruct (re_spaces r) as [r'|] eqn:Hs; [|discriminate].
  destruct (match_hm r') as [[[h mi] r3]|] eqn:Ht; [|discriminate].
  destruct r3; [|discriminate].
  destruct (make_date y m d) as [dd|] eqn:Hm; [|discriminate].
  intros [= <-]. exists y, m, d, r, r', h, mi, dd. auto 8.
Qed.

(** The time of day is read from what follows the last space. *)
Lemma strptime_datetime_time s dt :
  strptime_datetime s = Some dt ->
  match_hm (last_word s) = Some (hour dt, minute dt, "") /\ second dt = 0.
Proof.
  intros H. apply strptime_datetime_inv in H
    as (y & m & d & r & r' & h & mi & dd & Hd & Hs & Ht & _ & ->).
  split; [|reflexivity]. cbn [hour minute].
  apply match_ymd_split in Hd as (c0 & p & q & -> & _).
  apply re_spaces_split in Hs as (a & r0 & -> & Ha & ->).
  rewrite <- append_assoc, last_word_app
    by (cbn [has_space]; now rewrite Ha).
  rewrite last_word_after_space; eauto using match_hm_no_space.
Qed.

(** Two texts with the same ending after a blank give the same time of
    day. *)
Lemma strptime_datetime_same_time x y t a b :
  strptime_datetime (x ++ " " ++ t) = Some a ->
  strptime_datetime (y ++ " " ++ t) = Some b ->
  hour a = hour b /\ minute a = minute b /\ second a = second b.
Proof.
  intros Ha Hb.
  apply strptime_datetime_time in Ha as [Ha Hsa].
  apply strptime_datetime_time in Hb as [Hb Hsb].
  rewrite last_word_app in Ha by reflexivity.
  rewrite last_word_app in Hb by reflexivity.
  rewrite Ha in Hb. injection Hb as -> ->. now rewrite Hsa, Hsb.
Qed.

(** ** What follows the date does not change how the date is read *)

Lemma space_not_digit c : is_space c = true -> digit_val c = None.
Proof.
  intros H. destruct (digit_val c) eqn:Hd; [|reflexivity].
  apply digit_not_space in Hd. congruence.
Qed.

Lemma take_digits_app q r :
  match r with
  | String c _ => digit_val c = None
  | EmptyString => True
  end ->
  take_digits (q ++ r) = (fst (take_digits q), snd (take_digits q) ++ r).
Proof.
  intros Hr. induction q as [|c q IH]; cbn [String.append take_digits].
  - destruct r as [|a r]; [reflexivity|]. cbn [take_digits]. now rewrite Hr.
  - destruct (digit_val c); [|reflexivity].
    rewrite IH. now destruct (take_digits q).
Qed.

Lemma digits_field_app lo_len hi_len lo hi q r :
  starts_with_space r ->
  digits_field lo_len hi_len lo hi (q ++ r) =
  match digits_field lo_len hi_len lo hi q with
  | Some (v, q') => Some (v, q' ++ r)
  | None => None
  end.
Proof.
  intros Hr. unfold digits_field. rewrite take_digits_app.
  - destruct (take_digits q) as [ds q']. cbn [fst snd].
    now destruct (_ && _).
  - destruct r as [|c r]; [exact I | now apply space_not_digit].
Qed.

Lemma digits_field_of_space lo_len hi_len lo hi r :
  starts_with_space r -> (1 <= lo_len)%nat ->
  digits_field lo_len hi_len lo hi r = None.
Proof.
  intros Hr Hlen. destruct r as [|c r]; [contradiction|].
  unfold digits_field. cbn [take_digits].
  rewrite (space_not_digit _ Hr). cbn [length].
  destruct lo_len; [lia | reflexivity].
Qed.

Lemma expect_dash_app q r :
  starts_with_space r ->
  expect "-" (q ++ r) =
  match expect "-" q with
  | Some q' => Some (q' ++ r)
  | None => None
  end.
Proof.
  intros Hr. destruct q as [|c q]; cbn [String.append expect].
  - destruct r as [|a r]; [reflexivity|]. cbn [expect].
    destruct (Ascii.eqb_spec a "-") as [->|]; [discriminate Hr | reflexivity].
  - now destruct (c =? "-")%char.
Qed.

Lemma re_d_cons_not_blank a r :
  a <> " "%char -> re_d (String a r) = digits_field 1 2 1 31 (String a r).
Proof.
  intros Ha. destruct a as [[] [] [] [] [] [] [] []]; try reflexivity.
  now destruct Ha.
Qed.

Lemma re_d_app q r :
  starts_with_space r -> q <> "" ->
  re_d (q ++ r) =
  match re_d q with
  | Some (v, q') => Some (v, q' ++ r)
  | None => None
  end.
Proof.
  intros Hr Hq. destruct q as [|a q]; [contradiction|].
  destruct (Ascii.eqb_spec a " ") as [->|Ha].
  - cbn [String.append re_d]. now apply digits_field_app.
  - change (String a q ++ r) with (String a (q ++ r)).
    rewrite !re_d_cons_not_blank by assumption.
    now apply (digits_field_app 1 2 1 31 (String a q)).
Qed.

(** Read at the very start of a text that starts with a space, [%d]
    takes a blank and one digit. *)
Lemma re_d_of_space r v r' :
  starts_with_space r -> re_d r = Some (v, r') ->
  exists c r0, r = String " " (String c r0) /\ digit_val c <> None.
Proof.
  intros Hr H. destruct r as [|a r0]; [contradiction|].
  destruct (Ascii.eqb_spec a " ") as [->|Ha].
  - cbn [re_d] in H. unfold digits_field in H.
    destruct r0 as [|c r0]; [discriminate|].
    exists c, r0. split; [reflexivity|]. intros Hc.
    cbn [take_digits] in H. rewrite Hc in H. discriminate.
  - rewrite re_d_cons_not_blank in H by assumption.
    rewrite digits_field_of_space in H; [discriminate | exact Hr | lia].
Qed.

(** Either the date lies wholly inside [q], and is read from [q ++ r] as
    it is from [q]; or [q] stops right before the day, which is then a
    blank and a digit at the start of [r]. *)
Lemma match_ymd_app q r y m d rest :
  starts_with_space r ->
  match_ymd (q ++ r) = Some (y, m, d, rest) ->
  (exists q', match_ymd q = Some (y, m, d, q') /\ rest = q' ++ r) \/
  (exists c r0, r = String " " (String c r0) /\ digit_val c <> None).
Proof.
  intros Hr. unfold match_ymd, re_Y, re_m.
  rewrite (digits_field_app _ _ _ _ q r Hr).
  destruct (digits_field 4 4 0 9999 q) as [[y' q1]|]; [|discriminate].
  rewrite (expect_dash_app q1 r Hr).
  destruct (expect "-" q1) as [q2|]; [|discriminate].
  rewrite (digits_field_app _ _ _ _ q2 r Hr).
  destruct (digits_field 1 2 1 12 q2) as [[m' q3]|]; [|discriminate].
  rewrite (expect_dash_app q3 r Hr).
  destruct (expect "-" q3) as [q4|]; [|discriminate].
  destruct q4 as [|a q4].
  - cbn [String.append].
    destruct (re_d r) as [[d' r5]|] eqn:Hd; [|discriminate].
    intros _. right. exact (re_d_of_space r d' r5 Hr Hd).
  - rewrite (re_d_app (String a q4) r Hr) by discriminate.
    destruct (re_d (String a q4)) as [[d' q5]|]; [|discriminate].
    intros [= <- <- <- <-]. left. eauto.
Qed.

Lemma match_ymd_app_inside q r y m d q' :
  starts_with_space r ->
  match_ymd q = Some (y, m, d, q') ->
  match_ymd (q ++ r) = Some (y, m, d, q' ++ r).
Proof.
  intros Hr. unfold match_ymd, re_Y, re_m.
  rewrite (digits_field_app _ _ _ _ q r Hr).
  destruct (digits_field 4 4 0 9999 q) as [[y' q1]|]; [|discriminate].
  rewrite (expect_dash_app q1 r Hr).
  destruct (expect "-" q1) as [q2|]; [|discriminate].
  rewrite (digits_field_app _ _ _ _ q2 r Hr).
  destruct (digits_field 1 2 1 12 q2) as [[m' q3]|]; [|discriminate].
  rewrite (expect_dash_app q3 r Hr).
  destruct (expect "-" q3) as [q4|]; [|discriminate].
  destruct q4 as [|a q4]; [discriminate|].
  rewrite (re_d_app (String a q4) r Hr) by discriminate.
  destruct (re_d (String a q4)) as [[d' q5]|]; [|discriminate].
  now intros [= <- <- <- <-].
Qed.

Lemma rstrip_decompose s :
  exists w, s = rstrip s ++ w /\ all_space w = true.
Proof.
  induction s as [|c s (w & Hs & Hw)].
  - exists "". auto.
  - cbn [rstrip]. destruct (rstrip s) as [|x r'] eqn:Hr.
    + destruct (is_space c) eqn:Hc.
      * exists (String c s). split; [reflexivity|].
        cbn [all_space]. rewrite Hc. simpl in Hs. now rewrite Hs.
      * exists w. split; [|exact Hw]. simpl in *. congruence.
    + exists w. split; [|exact Hw]. simpl in *. congruence.
Qed.

Lemma strip_nonspace_start c s :
  is_space c = false -> strip (String c s) = rstrip (String c s).
Proof.
  intros Hc. unfold strip. cbn [rstrip].
  destruct (rstrip s); [rewrite Hc|]; now apply lstrip_no_leading_space.
Qed.

Lemma all_space_starts w r :
  all_space w = true -> starts_with_space (w ++ " " ++ r).
Proof.
  destruct w as [|c w]; [reflexivity|].
  cbn [all_space]. intros H. apply andb_prop in H as [H _]. exact H.
Qed.

(** Spaces at the end of the date text are swallowed by the blank of
    the format: with or without them the same instant is read. *)
Lemma strptime_datetime_strip s t a b :
  strptime_datetime (s ++ " " ++ t) = Some a ->
  strptime_datetime (strip s ++ " " ++ t) = Some b ->
  a = b.
Proof.
  intros Ha Hb.
  destruct (strptime_datetime_same_time _ _ _ _ _ Ha Hb) as (Hh & Hm & _).
  pose proof Ha as Ha'. pose proof Hb as Hb'.
  apply strptime_datetime_inv in Ha'
    as (y1 & m1 & d1 & r1 & r1' & h1 & mi1 & dd1 & Hd1 & _ & _ & Hmk1 & ->).
  apply strptime_datetime_inv in Hb'
    as (y2 & m2 & d2 & r2 & r2' & h2 & mi2 & dd2 & Hd2 & _ & _ & Hmk2 & ->).
  cbn [hour minute] in Hh, Hm. subst h2 mi2.
  destruct s as [|c0 s'].
  { apply match_ymd_split in Hd1 as (c & p & q & Heq & Hc & _).
    injection Heq as <- _. discriminate Hc. }
  assert (Hc0 : is_space c0 = false).
  { apply match_ymd_split in Hd1 as (c & p & q & Heq & Hc & _).
    now injection Heq as <- _. }
  rewrite (strip_nonspace_start _ _ Hc0) in Hb, Hd2.
  destruct (rstrip_decompose (String c0 s')) as (w & Hs & Hw).
  destruct w as [|x w].
  { rewrite append_nil_r in Hs. rewrite <- Hs in Hb. congruence. }
  rewrite Hs, append_assoc in Hd1.
  apply match_ymd_app in Hd1 as [(q' & Hq & _)|(c & r0 & Heq & Hc)];
    [| | exact (all_space_starts _ _ Hw)].
  - rewrite (match_ymd_app_inside _ (" " ++ t) _ _ _ _ eq_refl Hq) in Hd2.
    injection Hd2 as <- <- <- _. congruence.
  - exfalso. apply Hc. cbn [all_space] in Hw.
    apply andb_prop in Hw as [_ Hw].
    destruct w as [|z w]; injection Heq as _ <-; [reflexivity|].
    apply space_not_digit. cbn [all_space] in Hw.
    now apply andb_prop in Hw as [Hw _].
Qed.

(* ================================================================== *)
(** * Timed events without an end time *)
(* ================================================================== *)


Lemma strptime_datetime_valid s dt :
  strptime_datetime s = Some dt -> valid_date (dt_date dt) = true.
Proof.
  intros H. apply strptime_datetime_inv in H
    as (y & m & d & r & r' & h & mi & dd & _ & _ & _ & Hd & ->).
  cbn [dt_date]. unfold make_date in Hd.
  destruct (valid_date (mkDate y m d)) eqn:Hv; [|discriminate].
  now injection Hd as <-.
Qed.



(* ================================================================== *)
(** * Further properties of [generate_ics] *)
(* ================================================================== *)

(** ** What a run does to the world *)

(** X2.  Running the generator a second time on the same input and file
    name ends the same way and leaves the files exactly as the first
    run left them: the old text is replaced, not appended to. *)
Theorem generate_ics_twice events filename w :
  let w1 := snd (generate_ics events filename w) in
  fst (generate_ics events filename w1) = fst (generate_ics events filename w) /\
  files (snd (generate_ics events filename w1)) = files w1.
Proof.
  cbv zeta. unfold generate_ics.
  destruct (ics_document (zones w) (local_zone w) events)
    as [out [doc|e]] eqn:Hd; cbn [fst snd]; simpl; rewrite Hd; simpl.
  - split; [reflexivity|]. apply insert_insert_eq.
  - split; reflexivity.
Qed.

(** ** Every descriptor is accounted for *)

Lemma process_event_output db local_timezone ev out r :
  process_event db local_timezone ev = (out, Ok r) ->
  match r with
  | Some _ => out = []
  | None =>
      exists fs,
        extract_fields ev = Ok fs /\
        (out = [SkipMissingStartDate (py_str (f_summary fs))] \/
         out = [SkipInvalidDate (py_str (f_summary fs))])
  end.
Proof.
  rewrite process_event_unfold.
  destruct (extract_fields ev) as [fs|]; [|discriminate].
  destruct (is_none_sentinel (f_start_date fs)).
  { intros [= <- <-]. eauto. }
  cbv zeta. destruct (pytz_timezone db _) as [tz|]; [|discriminate].
  destruct (build_datetimes tz fs) as [res|[]]; try discriminate.
  - destruct (add_recurrence _ _); [|discriminate]. now intros [= <- <-].
  - intros [= <- <-]. eauto.
Qed.

Lemma for_events_accounting db local_timezone evs acc out c :
  for_events db local_timezone evs acc = (out, Ok c) ->
  exists rs,
    Forall2 (turn_result db local_timezone) evs rs /\
    c = acc ++ join_blocks rs /\
    length out = count_skipped rs.
Proof.
  revert acc out. induction evs as [|e evs IH]; intros acc out; simpl.
  - intros [= <- <-]. exists []. repeat split; [constructor|].
    simpl. now rewrite append_nil_r.
  - intros H. apply bind_ok in H as (o1 & r & o2 & He & Hrest & ->).
    pose proof (process_event_output _ _ _ _ _ He) as Ho.
    destruct r as [b|].
    + apply IH in Hrest as (rs & Hall & -> & Hlen). subst o1.
      exists (Some b :: rs). repeat split.
      * constructor; [now exists [] | exact Hall].
      * simpl. now rewrite append_assoc.
      * exact Hlen.
    + apply IH in Hrest as (rs & Hall & -> & Hlen).
      exists (None :: rs). repeat split.
      * constructor; [now exists o1 | exact Hall].
      * destruct Ho as (fs & _ & [-> | ->]); unfold count_skipped in *;
          simpl; now rewrite Hlen.
Qed.

Lemma count_skipped_blocks rs :
  (count_skipped rs + count_blocks rs = length rs)%nat.
Proof.
  unfold count_skipped, count_blocks.
  induction rs as [|[b|] rs IH]; simpl; lia.
Qed.

(** X3.  In a run that finishes, every descriptor of the list either
    left one block in the text or one skip message on the console,
    never both and never neither: the console grew by one line per
    skipped descriptor and a last line naming the file. *)
Theorem every_descriptor_is_accounted_for evs filename w w' :
  generate_ics (VList evs) filename w = (Ok tt, w') ->
  exists rs skips,
    Forall2 (turn_result (zones w) (local_zone w)) evs rs /\
    files w' !! filename =
      Some (ics_header ++ join_blocks rs ++ ics_footer) /\
    stdout w' = (stdout w ++ skips ++ [FileSaved filename])%list /\
    length skips = count_skipped rs /\
    (count_skipped rs + count_blocks rs = length evs)%nat.
Proof.
  unfold generate_ics.
  destruct (ics_document _ _ _) as [out [doc|e]] eqn:Hd; [|discriminate].
  intros [= <-].
  apply ics_document_ok in Hd as (c & Hf & ->).
  apply for_events_accounting in Hf as (rs & Hall & -> & Hlen).
  exists rs, out. repeat split; auto.
  - unfold with_output, write_file. cbn [files].
    rewrite lookup_insert_eq. now rewrite append_assoc.
  - unfold with_output, write_file. cbn [stdout]. now rewrite app_assoc.
  - rewrite count_skipped_blocks. symmetry.
    clear -Hall. induction Hall; simpl; congruence.
Qed.

Lemma every_descriptor_is_accounted_for_witness :
  let kept := VDict [("summary", VStr "A"); ("start_date", VStr "2025-03-10")] in
  let bad := VDict [("summary", VStr "B"); ("start_date", VStr "soon")] in
  let events := [kept; bad; kept] in
  exists rs skips,
    Forall2 (turn_result sample_zones "Australia/Adelaide") events rs /\
    files (snd (generate_ics (VList events) "calendar.ics" sample_world))
      !! "calendar.ics" = Some (ics_header ++ join_blocks rs ++ ics_footer) /\
    stdout (snd (generate_ics (VList events) "calendar.ics" sample_world)) =
      (stdout sample_world ++ skips ++ [FileSaved "calendar.ics"])%list /\
    length skips = count_skipped rs /\
    (count_skipped rs + count_blocks rs = length events)%nat.
Proof.
  intros kept bad events.
  exact (every_descriptor_is_accounted_for events "calendar.ics" sample_world
           _ eq_refl).
Defined.

(** ** Exceptions that end the run *)

(** An exception in one turn ends the run: the descriptors after it are
    not looked at and no file is written. *)
Lemma fatal_turn_aborts_run db local_timezone pre ev post o e filename w :
  zones w = db -> local_zone w = local_timezone ->
  Forall (fun x => exists r, turn_result db local_timezone x r) pre ->
  process_event db local_timezone ev = (o, Raise e) ->
  fst (generate_ics (VList (pre ++ ev :: post)) filename w) = Raise e /\
  files (snd (generate_ics (VList (pre ++ ev :: post)) filename w)) = files w.
Proof.
  intros <- <- Hpre Hev.
  apply turns_have_results in Hpre as [rs Hrs].
  destruct (for_events_complete _ _ _ _ ics_header Hrs) as [o' Ho].
  unfold generate_ics.
  rewrite ics_document_list, for_events_app, Ho. cbn [bind for_events].
  rewrite Hev. cbn [bind fst snd]. split; reflexivity.
Qed.

Lemma py_strip_is_str v :
  py_strip v = if is_str v then Ok (strip (py_str v)) else Raise AttributeError.
Proof. now destruct v. Qed.

Lemma extract_fields_strippable event :
  if strippable_fields event
  then exists fs, extract_fields event = Ok fs
  else extract_fields event = Raise AttributeError.
Proof.
  destruct event as [| | | | |d]; try reflexivity.
  unfold strippable_fields, extract_fields. cbn [py_get rbind].
  rewrite !py_strip_is_str.
  destruct (is_str (py_or (dict_get_or d "end_date" VNone) _));
    [|reflexivity].
  destruct (is_str (py_or (dict_get_or d "start_time" VNone) _));
    [|reflexivity].
  destruct (is_str (py_or (dict_get_or d "end_time" VNone) _));
    [|reflexivity].
  cbn [andb rbind]. eauto.
Qed.



(** X5.  An all-day descriptor whose end date is 9999-12-31 cannot get
    its exclusive end: adding the day raises [OverflowError], which the
    [try] statement does not catch, so the run ends there without a
    file instead of skipping the descriptor. *)
Theorem last_day_overflow_aborts_run db local_timezone ev fs tz s d1 :
  extract_fields ev = Ok fs ->
  is_none_sentinel (f_start_date fs) = false ->
  pytz_timezone db (effective_timezone local_timezone (f_timezone fs))
    = Ok tz ->
  f_start_time fs = "" ->
  f_start_date fs = VStr s ->
  strptime_date s = Some d1 ->
  strptime_date (f_end_date fs) = Some (mkDate 9999 12 31) ->
  process_event db local_timezone ev = ([], Raise OverflowError) /\
  forall pre post filename w,
    zones w = db -> local_zone w = local_timezone ->
    Forall (fun x => exists r, turn_result db local_timezone x r) pre ->
    fst (generate_ics (VList (pre ++ ev :: post)) filename w)
      = Raise OverflowError /\
    files (snd (generate_ics (VList (pre ++ ev :: post)) filename w))
      = files w.
Proof.
  intros Hx Hs Htz Hst Hsd H1 H2.
  assert (Hev : process_event db local_timezone ev =
                ([], Raise OverflowError)).
  { rewrite process_event_unfold, Hx, Hs. cbv zeta. rewrite Htz.
    unfold build_datetimes. rewrite Hst, Hsd. cbn [String.eqb].
    unfold py_strptime_date. rewrite H1, H2. reflexivity. }
  split; [exact Hev|]. intros pre post filename w Hz Hl Hpre.
  exact (fatal_turn_aborts_run _ _ _ _ _ _ _ _ _ Hz Hl Hpre Hev).
Qed.

Lemma last_day_overflow_aborts_run_witness :
  let ev := VDict [("summary", VStr "Forever");
                   ("start_date", VStr "2025-03-10");
                   ("end_date", VStr "9999-12-31")] in
  process_event sample_zones "Australia/Adelaide" ev
    = ([], Raise OverflowError) /\
  fst (generate_ics (VList ([] ++ ev :: [])) "calendar.ics" sample_world)
    = Raise OverflowError /\
  files (snd (generate_ics (VList ([] ++ ev :: [])) "calendar.ics"
                sample_world)) = files sample_world.
Proof.
  intros ev.
  destruct (last_day_overflow_aborts_run sample_zones "Australia/Adelaide" ev
              (mkFields (VStr "Forever") (VStr "2025-03-10") "9999-12-31"
                 "" "" (VStr "none") (VStr "") (VStr "") VNone)
              (fun _ => Ok 570) "2025-03-10" (mkDate 2025 3 10)
              eq_refl eq_refl eq_refl eq_refl eq_refl eq_refl eq_refl)
    as [Hturn Hrun].
  split; [exact Hturn|].
  exact (Hrun [] [] "calendar.ics" sample_world eq_refl eq_refl
           (List.Forall_nil _)).
Defined.

(** ** Timed events *)

(** The shape of an emitted block when the start time is not empty. *)
Lemma timed_block_form db local_timezone ev fs out blk :
  extract_fields ev = Ok fs ->
  f_start_time fs <> "" ->
  process_event db local_timezone ev = (out, Ok (Some blk)) ->
  exists tz start_dt end_dt rest,
    pytz_timezone db (effective_timezone local_timezone (f_timezone fs))
      = Ok tz /\
    strptime_datetime (py_str (f_start_date fs) ++ " " ++ f_start_time fs)
      = Some (wall start_dt) /\
    strptime_datetime
      (f_end_date fs ++ " " ++
       (if (f_end_time fs =? "")%string then f_start_time fs
        else f_end_time fs)) = Some (wall end_dt) /\
    blk = "BEGIN:VEVENT" ++ nl ++
          "SUMMARY:" ++ py_str (f_summary fs) ++ nl ++
          "DTSTART;TZID=" ++
            py_str (effective_timezone local_timezone (f_timezone fs)) ++
            ":" ++ strftime_datetime start_dt ++ nl ++
          "DTEND;TZID=" ++
            py_str (effective_timezone local_timezone (f_timezone fs)) ++
            ":" ++ strftime_datetime end_dt ++ nl ++
          "LOCATION:" ++ py_str (f_location fs) ++ nl ++
          "DESCRIPTION:" ++ py_str (f_description fs) ++ nl ++ rest.
Proof.
  intros Hx Hst H.
  apply process_event_emits in H
    as (fs' & tz & r & body & Hx' & _ & Htz & Hb & Hr & -> & _).
  rewrite Hx in Hx'. apply Ok_inj in Hx'. subst fs'.
  unfold build_datetimes in Hb.
  apply String.eqb_neq in Hst. rewrite Hst in Hb.
  cbn [truthy] in Hb. rewrite negb_involutive in Hb.
  unfold py_strptime_datetime in Hb.
  destruct (strptime_datetime (py_str (f_start_date fs) ++ _))
    as [sn|] eqn:Hs; [|discriminate].
  cbn [rbind] in Hb. unfold localize in Hb.
  destruct (tz sn) as [off1|]; [|discriminate]. cbn [rbind] in Hb.
  destruct (strptime_datetime (f_end_date fs ++ _))
    as [en|] eqn:He; [|discriminate].
  cbn [rbind] in Hb.
  destruct (tz en) as [off2|]; [|discriminate]. cbn [rbind] in Hb.
  apply Ok_inj in Hb. subst r.
  apply add_recurrence_extends in Hr as [rr ->].
  exists tz, (mkAware sn off1), (mkAware en off2), (rr ++ "END:VEVENT" ++ nl).
  cbn [wall]. split; [exact Htz|]. split; [reflexivity|].
  split; [reflexivity|].
  unfold compose_vevent. now rewrite !append_assoc.
Qed.

(** X6.  In an emitted timed block both markers carry the same zone
    name, and that name is in the database: it is the host's zone name
    when the descriptor's [timezone] is missing, null or ["none"] in any
    letter case, and otherwise the descriptor's own text as written. *)
Theorem timezone_defaults_to_local_zone db local_timezone ev fs out blk :
  extract_fields ev = Ok fs ->
  f_start_time fs <> "" ->
  process_event db local_timezone ev = (out, Ok (Some blk)) ->
  let tzid :=
    if (lower (py_str (f_timezone fs)) =? "none")%string
    then local_timezone else py_str (f_timezone fs) in
  (exists z, db tzid = Some z) /\
  (exists start_dt end_dt rest,
      blk = "BEGIN:VEVENT" ++ nl ++
            "SUMMARY:" ++ py_str (f_summary fs) ++ nl ++
            "DTSTART;TZID=" ++ tzid ++ ":" ++ strftime_datetime start_dt ++ nl ++
            "DTEND;TZID=" ++ tzid ++ ":" ++ strftime_datetime end_dt ++ nl ++
            "LOCATION:" ++ py_str (f_location fs) ++ nl ++
            "DESCRIPTION:" ++ py_str (f_description fs) ++ nl ++ rest) /\
  (forall d, ev = VDict d ->
     dict_get d "timezone" = None \/ dict_get d "timezone" = Some VNone ->
     tzid = local_timezone).
Proof.
  intros Hx Hst H tzid.
  destruct (timed_block_form _ _ _ _ _ _ Hx Hst H)
    as (tz & start_dt & end_dt & rest & Htz & _ & _ & Hblk).
  assert (Heff : py_str (effective_timezone local_timezone (f_timezone fs))
                 = tzid).
  { unfold effective_timezone, is_none_sentinel, tzid.
    now destruct (_ =? _)%string. }
  split; [|split].
  - rewrite <- Heff. unfold pytz_timezone in Htz.
    destruct (effective_timezone local_timezone (f_timezone fs))
      as [| | |name| |]; try discriminate.
    cbn [py_str]. destruct (db name) as [z|]; [eauto | discriminate].
  - exists start_dt, end_dt, rest. now rewrite <- Heff.
  - intros d -> Hd.
    apply extract_fields_inv in Hx
      as (d' & [= <-] & _ & _ & _ & _ & _ & Hz & _).
    unfold tzid. rewrite Hz. unfold dict_get_or.
    destruct Hd as [-> | ->]; reflexivity.
Qed.

Lemma timezone_defaults_to_local_zone_witness :
  let ev := VDict [("summary", VStr "Call");
                   ("start_date", VStr "2025-03-10");
                   ("start_time", VStr "10:00"); ("end_time", VStr "11:00");
                   ("timezone", VStr "None")] in
  exists start_dt end_dt rest,
    snd (process_event sample_zones "Australia/Adelaide" ev) =
      Ok (Some ("BEGIN:VEVENT" ++ nl ++
                "SUMMARY:" ++ "Call" ++ nl ++
                "DTSTART;TZID=" ++ "Australia/Adelaide" ++ ":" ++
                  strftime_datetime start_dt ++ nl ++
                "DTEND;TZID=" ++ "Australia/Adelaide" ++ ":" ++
                  strftime_datetime end_dt ++ nl ++
                "LOCATION:" ++ "" ++ nl ++
                "DESCRIPTION:" ++ "" ++ nl ++ rest)).
Proof.
  intros ev.
  assert (Hne : "10:00" <> "") by discriminate.
  destruct (timezone_defaults_to_local_zone sample_zones "Australia/Adelaide"
              ev (mkFields (VStr "Call") (VStr "2025-03-10") "2025-03-10"
                    "10:00" "11:00" (VStr "None") (VStr "") (VStr "") VNone)
              [] _ eq_refl Hne eq_refl)
    as (_ & (start_dt & end_dt & rest & Hblk) & _).
  exists start_dt, end_dt, rest.
  exact (f_equal (fun b => Ok (Some b)) Hblk).
Defined.

(** X7.  Start and end of a timed event are never compared: whenever
    the zone resolves, both texts parse and both instants can be
    localized, the block is emitted with the two instants as they are,
    also when the end lies before the start. *)
Theorem timed_turn_emits_without_order_check
    db local_timezone ev fs tz sn en off1 off2 body :
  extract_fields ev = Ok fs ->
  is_none_sentinel (f_start_date fs) = false ->
  pytz_timezone db (effective_timezone local_timezone (f_timezone fs))
    = Ok tz ->
  f_start_time fs <> "" ->
  strptime_datetime (py_str (f_start_date fs) ++ " " ++ f_start_time fs)
    = Some sn ->
  tz sn = Ok off1 ->
  strptime_datetime
    (f_end_date fs ++ " " ++
     (if (f_end_time fs =? "")%string then f_start_time fs
      else f_end_time fs)) = Some en ->
  tz en = Ok off2 ->
  add_recurrence
    (compose_vevent fs (effective_timezone local_timezone (f_timezone fs))
       (Timed (mkAware sn off1) (mkAware en off2)))
    (f_recurrence fs) = Ok body ->
  process_event db local_timezone ev =
    ([], Ok (Some (body ++ "END:VEVENT" ++ nl))).
Proof.
  intros Hx Hs Htz Hst Hsn Ho1 Hen Ho2 Hr.
  apply process_event_emits.
  exists fs, tz, (Timed (mkAware sn off1) (mkAware en off2)), body.
  repeat split; auto.
  unfold build_datetimes. apply String.eqb_neq in Hst. rewrite Hst.
  cbn [truthy]. rewrite negb_involutive.
  unfold py_strptime_datetime, localize.
  rewrite Hsn. cbn [rbind]. rewrite Ho1. cbn [rbind].
  rewrite Hen. cbn [rbind]. now rewrite Ho2.
Qed.

Lemma timed_turn_emits_without_order_check_witness :
  let ev :=
    VDict [("summary", VStr "Backwards");
           ("start_date", VStr "2025-03-10"); ("start_time", VStr "18:00");
           ("end_date", VStr "2025-03-09"); ("end_time", VStr "07:30")] in
  process_event sample_zones "UTC" ev
  = ([], Ok (Some ("BEGIN:VEVENT" ++ nl ++ "SUMMARY:Backwards" ++ nl ++
                   "DTSTART;TZID=UTC:20250310T180000" ++ nl ++
                   "DTEND;TZID=UTC:20250309T073000" ++ nl ++
                   "LOCATION:" ++ nl ++ "DESCRIPTION:" ++ nl ++
                   "END:VEVENT" ++ nl))).
Proof.
  intros ev.
  assert (Hne : "18:00" <> "") by discriminate.
  apply (timed_turn_emits_without_order_check sample_zones "UTC" ev
           (mkFields (VStr "Backwards") (VStr "2025-03-10") "2025-03-09"
              "18:00" "07:30" (VStr "none") (VStr "") (VStr "") VNone)
           (fun _ => Ok 0)
           (mkDatetime (mkDate 2025 3 10) 18 0 0)
           (mkDatetime (mkDate 2025 3 9) 7 30 0) 0 0
           ("BEGIN:VEVENT" ++ nl ++ "SUMMARY:Backwards" ++ nl ++
            "DTSTART;TZID=UTC:20250310T180000" ++ nl ++
            "DTEND;TZID=UTC:20250309T073000" ++ nl ++
            "LOCATION:" ++ nl ++ "DESCRIPTION:" ++ nl));
    solve [reflexivity | exact Hne].
Defined.

(** ** Blank and ill-typed date and time values *)

Lemma lstrip_empty_iff s : lstrip s = "" <-> all_space s = true.
Proof.
  induction s as [|c s IH]; simpl; [tauto|].
  destruct (is_space c); simpl; [exact IH|].
  split; discriminate.
Qed.

Lemma rstrip_all_space s : all_space s = true -> rstrip s = "".
Proof.
  induction s as [|c s IH]; simpl; [reflexivity|].
  intros H. apply andb_prop in H as [Hc Hs]. now rewrite (IH Hs), Hc.
Qed.

Lemma all_space_app a b : all_space (a ++ b) = all_space a && all_space b.
Proof.
  induction a as [|c a IH]; simpl; [reflexivity|].
  now rewrite IH, andb_assoc.
Qed.

Lemma strip_empty_iff s : strip s = "" <-> all_space s = true.
Proof.
  unfold strip. split.
  - intros H. apply lstrip_empty_iff in H.
    destruct (rstrip_decompose s) as (w & Hs & Hw).
    rewrite Hs, all_space_app, H, Hw. reflexivity.
  - intros H. now rewrite (rstrip_all_space _ H).
Qed.

(** X8.  For a [start_time] that, when it is a string, is ASCII text:
    the extracted start time is empty, which makes the event an all-day
    one, exactly when [start_time] is missing, null, empty or otherwise
    falsy, or is a string of white space only. *)
Theorem blank_start_time_means_all_day d fs :
  extract_fields (VDict d) = Ok fs ->
  let v := dict_get_or d "start_time" VNone in
  (forall s, v = VStr s -> is_ascii s = true) ->
  f_start_time fs = "" <->
  truthy v = false \/ exists s, v = VStr s /\ all_space s = true.
Proof.
  intros Hx v _.
  apply extract_fields_inv in Hx as (d' & [= <-] & _ & _ & _ & Hst & _).
  fold v in Hst. unfold py_or in Hst.
  destruct (truthy v) eqn:Ht.
  - destruct v as [| | |s| |] eqn:Hv; try discriminate.
    cbn [py_strip] in Hst. apply Ok_inj in Hst. rewrite <- Hst.
    rewrite strip_empty_iff. split.
    + intros H. right. eauto.
    + intros [H|(s' & [= <-] & H)]; [discriminate | exact H].
  - cbn [py_strip] in Hst. apply Ok_inj in Hst. rewrite <- Hst.
    split; [now left | reflexivity].
Qed.

Lemma blank_start_time_means_all_day_witness :
  let d := [("start_date", VStr "2025-03-10"); ("start_time", VStr "   ")] in
  let fs := mkFields (VStr "Unnamed Event") (VStr "2025-03-10") "2025-03-10"
              "" "" (VStr "none") (VStr "") (VStr "") VNone in
  extract_fields (VDict d) = Ok fs /\ f_start_time fs = "".
Proof.
  intros d fs. split; [reflexivity|].
  assert (Ha : forall s,
             dict_get_or d "start_time" VNone = VStr s -> is_ascii s = true)
    by (intros s [= <-]; reflexivity).
  apply (proj2 (blank_start_time_means_all_day d fs eq_refl Ha)).
  right. exists "   ". split; reflexivity.
Defined.

Lemma match_ymd_nondigit c r : digit_val c = None -> match_ymd (String c r) = None.
Proof.
  intros H. unfold match_ymd, re_Y, digits_field. cbn [take_digits].
  now rewrite H.
Qed.

Lemma string_of_uint_all_digits d :
  snd (take_digits (NilEmpty.string_of_uint d)) = "".
Proof.
  induction d; cbn [NilEmpty.string_of_uint take_digits];
    try reflexivity;
    match goal with
    | |- context [digit_val ?c] =>
        let v := eval vm_compute in (digit_val c) in
        change (digit_val c) with v
    end;
    destruct (take_digits (NilEmpty.string_of_uint d)); exact IHd.
Qed.

(** The decimal text of an integer is never the start of a date. *)
Lemma match_ymd_of_integer z t : match_ymd (str_of_Z z ++ " " ++ t) = None.
Proof.
  unfold str_of_Z, NilZero.string_of_int.
  destruct (Z.to_int z) as [d|d].
  - assert (Hd : snd (take_digits (NilZero.string_of_uint d)) = "").
    { unfold NilZero.string_of_uint.
      destruct d; try reflexivity; apply string_of_uint_all_digits. }
    unfold match_ymd, re_Y.
    rewrite (digits_field_app 4 4 0 9999 _ (" " ++ t) eq_refl).
    unfold digits_field.
    destruct (take_digits (NilZero.string_of_uint d)) as [ds q'].
    cbn [snd] in Hd. subst q'.
    now destruct (_ && _).
  - now apply match_ymd_nondigit.
Qed.

Lemma non_string_never_parses v t :
  is_str v = false -> strptime_datetime (py_str v ++ " " ++ t) = None.
Proof.
  intros Hv. unfold strptime_datetime.
  assert (match_ymd (py_str v ++ " " ++ t) = None) as ->; [|reflexivity].
  destruct v as [|[]|z| | |]; try discriminate;
    solve [ now apply match_ymd_nondigit | apply match_ymd_of_integer ].
Qed.



(** ** The lines of a block *)

Lemma text_lines_app a b : text_lines (a ++ b) = text_lines a ++ text_lines b.
Proof.
  induction a as [|l a IH]; [reflexivity|].
  cbn [text_lines List.app]. now rewrite IH, !append_assoc.
Qed.

Lemma split_lines_text_lines ls rest :
  Forall one_line ls ->
  split_lines (text_lines ls ++ rest) = (ls ++ split_lines rest)%list.
Proof.
  induction 1 as [|l ls Hl _ IH]; [reflexivity|].
  cbn [text_lines]. rewrite !append_assoc, split_lines_app_nl, IH.
  now rewrite (split_lines_single l Hl).
Qed.

Lemma digit_char_not_newline n : (digit_char n =? "010")%char = false.
Proof.
  apply Ascii.eqb_neq. intros H.
  pose proof (digit_val_digit_char n) as Hd. rewrite H in Hd. discriminate.
Qed.

Lemma one_line_app a b : one_line a -> one_line b -> one_line (a ++ b).
Proof. unfold one_line. intros Ha Hb. now rewrite contains_app, Ha, Hb. Qed.

Lemma one_line_strftime_date d : one_line (strftime_date d).
Proof.
  unfold strftime_date, strftime_Y.
  apply one_line_app; [apply str_of_Z_no_newline|].
  unfold one_line, pad2. cbn [String.append contains].
  now rewrite !digit_char_not_newline.
Qed.

Lemma one_line_strftime_datetime a : one_line (strftime_datetime a).
Proof.
  unfold strftime_datetime.
  apply one_line_app; [apply one_line_strftime_date|].
  unfold one_line, pad2. cbn [String.append contains].
  now rewrite !digit_char_not_newline.
Qed.

Lemma known_frequency_cases f :
  known_frequency f = true -> f = "DAILY" \/ f = "WEEKLY" \/ f = "MONTHLY".
Proof.
  unfold known_frequency. intros H.
  apply orb_prop in H as [H|H]; [apply orb_prop in H as [H|H]|];
    apply String.eqb_eq in H; auto.
Qed.

(** The recurrence step adds nothing, or one line that starts with
    [RRULE:]. *)
Lemma add_recurrence_line base rec body :
  add_recurrence base rec = Ok body ->
  clean_recurrence rec ->
  body = base \/
  exists rrule,
    body = base ++ rrule ++ nl /\ one_line rrule /\
    ("BEGIN:VEVENT" =? rrule)%string = false /\
    ("END:VEVENT" =? rrule)%string = false.
Proof.
  unfold add_recurrence. destruct (truthy rec); [|intros [= <-]; now left].
  destruct rec as [| | | | |d]; try discriminate.
  cbn [py_get rbind clean_recurrence].
  destruct (known_frequency _) eqn:Hk; [|intros [= <-]; now left].
  intros [= <-] [Hi Hc]. right.
  assert (Hf : one_line (upper (py_str (dict_get_or d "frequency" (VStr "none"))))).
  { apply known_frequency_cases in Hk as [-> | [-> | ->]]; reflexivity. }
  destruct (truthy (dict_get_or d "count" VNone));
    (eexists; split; [reflexivity|]; split; [|split; reflexivity]);
    repeat apply one_line_app; auto; reflexivity.
Qed.

(** An emitted block whose fields have no line break is a sequence of
    lines framed by [BEGIN:VEVENT] and [END:VEVENT]. *)
Lemma emitted_block_lines db local_timezone ev fs out blk :
  extract_fields ev = Ok fs ->
  clean_fields local_timezone fs ->
  process_event db local_timezone ev = (out, Ok (Some blk)) ->
  exists mid,
    blk = text_lines ("BEGIN:VEVENT" :: mid ++ ["END:VEVENT"]) /\
    Forall (fun l => one_line l /\
                     ("BEGIN:VEVENT" =? l)%string = false /\
                     ("END:VEVENT" =? l)%string = false) mid.
Proof.
  intros Hx (Hs & Hl & Hd & Hz & Hrec) H.
  apply process_event_emits in H
    as (fs' & tz & r & body & Hx' & _ & _ & _ & Hr & -> & _).
  rewrite Hx in Hx'. apply Ok_inj in Hx'. subst fs'.
  set (eff := effective_timezone local_timezone (f_timezone fs)) in *.
  assert (Hbase : exists l3 l4,
             compose_vevent fs eff r =
               text_lines ["BEGIN:VEVENT"; "SUMMARY:" ++ py_str (f_summary fs);
                           l3; l4;
                           "LOCATION:" ++ py_str (f_location fs);
                           "DESCRIPTION:" ++ py_str (f_description fs)] /\
             one_line l3 /\ one_line l4 /\
             ("BEGIN:VEVENT" =? l3)%string = false /\
             ("END:VEVENT" =? l3)%string = false /\
             ("BEGIN:VEVENT" =? l4)%string = false /\
             ("END:VEVENT" =? l4)%string = false).
  { destruct r as [d1 d2 | a1 a2]; unfold compose_vevent.
    - exists ("DTSTART;VALUE=DATE:" ++ strftime_date d1),
             ("DTEND;VALUE=DATE:" ++ strftime_date d2).
      split; [cbn [text_lines]; now rewrite !append_assoc, append_nil_r|].
      repeat split; try reflexivity;
        (apply one_line_app; [reflexivity | apply one_line_strftime_date]).
    - exists ("DTSTART;TZID=" ++ py_str eff ++ ":" ++ strftime_datetime a1),
             ("DTEND;TZID=" ++ py_str eff ++ ":" ++ strftime_datetime a2).
      split; [cbn [text_lines]; now rewrite !append_assoc, append_nil_r|].
      repeat split; try reflexivity;
        (apply one_line_app; [reflexivity|];
         apply one_line_app; [exact Hz|];
         apply one_line_app;
         [reflexivity | apply one_line_strftime_datetime]). }
  destruct Hbase as (l3 & l4 & Hbase & H3 & H4 & Hb3 & He3 & Hb4 & He4).
  assert (Hfix : Forall (fun l => one_line l /\
                     ("BEGIN:VEVENT" =? l)%string = false /\
                     ("END:VEVENT" =? l)%string = false)
                   ["SUMMARY:" ++ py_str (f_summary fs); l3; l4;
                    "LOCATION:" ++ py_str (f_location fs);
                    "DESCRIPTION:" ++ py_str (f_description fs)]).
  { repeat constructor; auto; apply one_line_app; auto; reflexivity. }
  apply add_recurrence_line in Hr as [-> | (rrule & -> & Hone & Hb & He)];
    [| |exact Hrec].
  - eexists. split; [|exact Hfix].
    rewrite Hbase. cbn [text_lines List.app].
    now rewrite !append_assoc, ?append_nil_r.
  - exists (List.app ["SUMMARY:" ++ py_str (f_summary fs); l3; l4;
                      "LOCATION:" ++ py_str (f_location fs);
                      "DESCRIPTION:" ++ py_str (f_description fs)] [rrule]).
    split.
    + rewrite Hbase. cbn [text_lines List.app].
      now rewrite !append_assoc, ?append_nil_r.
    + apply List.Forall_app. split; [exact Hfix|]. repeat constructor; auto.
Qed.

(** ** The recurrence line *)

Lemma to_upper_to_lower c :
  is_ascii_char c = true -> to_upper (to_lower c) = to_upper c.
Proof. intros _. destruct c as [[] [] [] [] [] [] [] []]; reflexivity. Qed.

Lemma to_lower_to_upper c :
  is_ascii_char c = true -> to_lower (to_upper c) = to_lower c.
Proof. intros _. destruct c as [[] [] [] [] [] [] [] []]; reflexivity. Qed.

(** On ASCII text, upper-casing forgets the case of the letters. *)
Lemma upper_lower s : is_ascii s = true -> upper (lower s) = upper s.
Proof.
  unfold upper, lower.
  induction s as [|c s IH]; cbn [map_chars is_ascii]; [reflexivity|].
  intros H. apply andb_prop in H as [Hc Hs].
  now rewrite (to_upper_to_lower _ Hc), (IH Hs).
Qed.

Lemma lower_upper s : is_ascii s = true -> lower (upper s) = lower s.
Proof.
  unfold upper, lower.
  induction s as [|c s IH]; cbn [map_chars is_ascii]; [reflexivity|].
  intros H. apply andb_prop in H as [Hc Hs].
  now rewrite (to_lower_to_upper _ Hc), (IH Hs).
Qed.

(** For an ASCII frequency, the test of line 128 on the upper-cased text
    is a comparison with the three names that ignores the case. *)
Lemma known_frequency_lower f :
  is_ascii f = true ->
  known_frequency (upper f) = true <->
  In (lower f) ["daily"; "weekly"; "monthly"].
Proof.
  intros Ha. split.
  - intros H. apply known_frequency_cases in H.
    rewrite <- (lower_upper f Ha).
    destruct H as [-> | [-> | ->]]; simpl; auto.
  - intros H. rewrite <- (upper_lower f Ha).
    simpl in H. destruct H as [<- | [<- | [<- | []]]]; reflexivity.
Qed.

(** Lines 123-132 for a recurrence that is a dict with some entry. *)
Lemma add_recurrence_dict ics_event d :
  d <> [] ->
  add_recurrence ics_event (VDict d) =
  let freq := upper (py_str (dict_get_or d "frequency" (VStr "none"))) in
  if known_frequency freq
  then Ok (ics_event ++
           rrule_of freq (dict_get_or d "interval" (VInt 1))
             (dict_get_or d "count" VNone) ++ nl)
  else Ok ics_event.
Proof.
  intros Hne. unfold add_recurrence.
  assert (truthy (VDict d) = true) as ->
    by (destruct d; [contradiction | reflexivity]).
  cbn [py_get rbind]. cbv zeta.
  destruct (known_frequency _); [|reflexivity].
  unfold rrule_of. destruct (truthy (dict_get_or d "count" VNone));
    now rewrite !append_assoc, ?append_nil_r.
Qed.

(** Lines 123-132 for a falsy [recurrence]. *)
Lemma add_recurrence_falsy ics_event rec :
  truthy rec = false -> add_recurrence ics_event rec = Ok ics_event.
Proof. intros H. unfold add_recurrence. now rewrite H. Qed.

(** The recurrence step goes through for a falsy value and for a dict
    only. *)
Lemma add_recurrence_shape ics_event rec body :
  add_recurrence ics_event rec = Ok body ->
  truthy rec = false \/ exists d, rec = VDict d /\ d <> [].
Proof.
  unfold add_recurrence. destruct (truthy rec) eqn:Ht; [|now left].
  destruct rec as [| | | | |d]; try discriminate.
  intros _. right. exists d. split; [reflexivity|].
  now destruct d.
Qed.

Lemma rrule_of_line freq interval count :
  known_frequency freq = true ->
  one_line (py_str interval) -> one_line (py_str count) ->
  rrule_lines (rrule_of freq interval count) = [rrule_of freq interval count].
Proof.
  intros Hk Hi Hc.
  assert (Hone : one_line (rrule_of freq interval count)).
  { unfold rrule_of.
    apply one_line_app; [reflexivity|].
    apply one_line_app;
      [apply known_frequency_cases in Hk as [-> | [-> | ->]]; reflexivity|].
    apply one_line_app; [reflexivity|].
    apply one_line_app; [exact Hi|].
    destruct (truthy count); [|reflexivity].
    apply one_line_app; [reflexivity | exact Hc]. }
  unfold rrule_lines. rewrite (split_lines_single _ Hone).
  unfold rrule_of. reflexivity.
Qed.

(** The text composed from clean fields has no line that starts with
    [RRULE:]. *)
Lemma compose_vevent_no_rrule local_timezone fs r rest :
  clean_fields local_timezone fs ->
  rrule_lines
    (compose_vevent fs (effective_timezone local_timezone (f_timezone fs)) r
     ++ rest) = rrule_lines rest.
Proof.
  intros (Hs & Hl & Hd & Hz & _).
  set (eff := effective_timezone local_timezone (f_timezone fs)) in *.
  assert (Hbase : exists l3 l4,
             compose_vevent fs eff r =
               text_lines ["BEGIN:VEVENT"; "SUMMARY:" ++ py_str (f_summary fs);
                           l3; l4;
                           "LOCATION:" ++ py_str (f_location fs);
                           "DESCRIPTION:" ++ py_str (f_description fs)] /\
             one_line l3 /\ one_line l4 /\
             String.prefix "RRULE:" l3 = false /\
             String.prefix "RRULE:" l4 = false).
  { destruct r as [d1 d2 | a1 a2]; unfold compose_vevent.
    - exists ("DTSTART;VALUE=DATE:" ++ strftime_date d1),
             ("DTEND;VALUE=DATE:" ++ strftime_date d2).
      split; [cbn [text_lines]; now rewrite !append_assoc, append_nil_r|].
      repeat split; try reflexivity;
        (apply one_line_app; [reflexivity | apply one_line_strftime_date]).
    - exists ("DTSTART;TZID=" ++ py_str eff ++ ":" ++ strftime_datetime a1),
             ("DTEND;TZID=" ++ py_str eff ++ ":" ++ strftime_datetime a2).
      split; [cbn [text_lines]; now rewrite !append_assoc, append_nil_r|].
      repeat split; try reflexivity;
        (apply one_line_app; [reflexivity|];
         apply one_line_app; [exact Hz|];
         apply one_line_app;
         [reflexivity | apply one_line_strftime_datetime]). }
  destruct Hbase as (l3 & l4 & -> & H3 & H4 & Hp3 & Hp4).
  unfold rrule_lines. rewrite split_lines_text_lines.
  - rewrite List.filter_app. cbn [List.filter].
    rewrite Hp3, Hp4. reflexivity.
  - repeat (apply List.Forall_cons;
            [first [assumption | reflexivity
                   | apply one_line_app; [reflexivity | assumption]]|]).
    apply List.Forall_nil.
Qed.

(** C4, counterexample.  A count of 0 is present in the recurrence and
    is not written, the test of line 130 being on its truth value; and a
    summary with a line break that brings an [RRULE:] line of its own
    leaves the block with two such lines. *)
Lemma recurrence_line_is_not_always_as_claimed :
  (exists blk,
     process_event sample_zones "UTC"
       (VDict [("summary", VStr "Gym"); ("start_date", VStr "2025-03-10");
               ("recurrence",
                VDict [("frequency", VStr "daily"); ("count", VInt 0)])])
     = ([], Ok (Some blk)) /\
     rrule_lines blk = ["RRULE:FREQ=DAILY;INTERVAL=1"]) /\
  (exists blk,
     process_event sample_zones "UTC"
       (VDict [("summary", VStr ("Gym" ++ nl ++ "RRULE:FREQ=YEARLY"));
               ("start_date", VStr "2025-03-10");
               ("recurrence", VDict [("frequency", VStr "daily")])])
     = ([], Ok (Some blk)) /\
     rrule_lines blk = ["RRULE:FREQ=YEARLY"; "RRULE:FREQ=DAILY;INTERVAL=1"]).
Proof.
  split; eexists; (split; [vm_compute; reflexivity | vm_compute; reflexivity]).
Qed.

(** C4, as amended.  An emitted block is the text composed from the
    fields, then the recurrence line if there is one, then [END:VEVENT];
    its [recurrence] is falsy (missing, null, empty) or a dict.  For a
    dict whose frequency is an ASCII text that reads daily, weekly or
    monthly in any letter case, the line is
    [RRULE:FREQ=<FREQ>;INTERVAL=<interval>], the interval as [str] gives
    it and 1 when the key is missing, with [;COUNT=<count>] exactly when
    the count is truthy (there, and not null, 0 or empty); the [RRULE:]
    lines of the block are those of the composed text followed by that
    line when interval and count have no line break, and that line alone
    when no text of the block has one.  For any other ASCII frequency,
    and for a falsy recurrence, nothing is added. *)
Theorem recurrence_rule_line db local_timezone ev out blk :
  process_event db local_timezone ev = (out, Ok (Some blk)) ->
  exists fs tz r,
    extract_fields ev = Ok fs /\
    build_datetimes tz fs = Ok r /\
    let base :=
      compose_vevent fs
        (effective_timezone local_timezone (f_timezone fs)) r in
    (truthy (f_recurrence fs) = false \/
     exists d, f_recurrence fs = VDict d /\ d <> []) /\
    (forall d, f_recurrence fs = VDict d -> d <> [] ->
       let f := py_str (dict_get_or d "frequency" (VStr "none")) in
       let interval := dict_get_or d "interval" (VInt 1) in
       let count := dict_get_or d "count" VNone in
       is_ascii f = true ->
       (In (lower f) ["daily"; "weekly"; "monthly"] ->
        let rrule := rrule_of (upper f) interval count in
        In (upper f) ["DAILY"; "WEEKLY"; "MONTHLY"] /\
        blk = base ++ rrule ++ nl ++ "END:VEVENT" ++ nl /\
        (clean_recurrence (f_recurrence fs) ->
         rrule_lines blk = (rrule_lines base ++ [rrule])%list) /\
        (clean_fields local_timezone fs -> rrule_lines blk = [rrule])) /\
       (~ In (lower f) ["daily"; "weekly"; "monthly"] ->
        blk = base ++ "END:VEVENT" ++ nl /\
        rrule_lines blk = rrule_lines base /\
        (clean_fields local_timezone fs -> rrule_lines blk = []))) /\
    (truthy (f_recurrence fs) = false ->
     blk = base ++ "END:VEVENT" ++ nl /\
     rrule_lines blk = rrule_lines base /\
     (clean_fields local_timezone fs -> rrule_lines blk = [])).
Proof.
  intros H. apply process_event_emits in H
    as (fs & tz & r & body & Hx & _ & _ & Hb & Hr & -> & _).
  exists fs, tz, r. split; [exact Hx|]. split; [exact Hb|].
  cbv zeta.
  set (base := compose_vevent fs
                 (effective_timezone local_timezone (f_timezone fs)) r) in *.
  destruct (compose_vevent_ends_with_newline fs
              (effective_timezone local_timezone (f_timezone fs)) r)
    as [base0 Hbase]. fold base in Hbase.
  assert (Hnone : rrule_lines base = rrule_lines base0).
  { rewrite Hbase. rewrite <- (append_nil_r (base0 ++ nl)), append_assoc.
    rewrite rrule_lines_app_nl. apply app_nil_r. }
  assert (Hplain :
            body = base ->
            body ++ "END:VEVENT" ++ nl = base ++ "END:VEVENT" ++ nl /\
            rrule_lines (body ++ "END:VEVENT" ++ nl) = rrule_lines base /\
            (clean_fields local_timezone fs ->
             rrule_lines (body ++ "END:VEVENT" ++ nl) = [])).
  { intros ->. split; [reflexivity|]. split.
    - rewrite Hnone, Hbase, !append_assoc.
      rewrite rrule_lines_app_nl. now rewrite app_nil_r.
    - intros Hclean. unfold base.
      now rewrite (compose_vevent_no_rrule _ _ _ _ Hclean). }
  split; [exact (add_recurrence_shape _ _ _ Hr)|]. split.
  - intros d Hrec Hne Ha.
    rewrite Hrec, (add_recurrence_dict _ _ Hne) in Hr. cbv zeta in Hr.
    pose proof (known_frequency_lower _ Ha) as Hiff.
    destruct (known_frequency _) eqn:Hk.
    + split; [|intros Hn; now destruct (Hn (proj1 Hiff eq_refl))].
      intros _. apply Ok_inj in Hr. subst body.
      split; [apply known_frequency_cases in Hk as [-> | [-> | ->]];
              simpl; auto|].
      split; [now rewrite !append_assoc|]. split.
      * intros Hcr. rewrite Hrec in Hcr. destruct Hcr as [Hi Hc].
        rewrite Hnone, Hbase, !append_assoc.
        rewrite rrule_lines_app_nl, rrule_lines_app_nl.
        now rewrite (rrule_of_line _ _ _ Hk Hi Hc).
      * intros Hclean. pose proof Hclean as (_ & _ & _ & _ & Hcr).
        rewrite Hrec in Hcr. destruct Hcr as [Hi Hc].
        rewrite !append_assoc. unfold base.
        rewrite (compose_vevent_no_rrule _ _ _ _ Hclean).
        rewrite rrule_lines_app_nl.
        now rewrite (rrule_of_line _ _ _ Hk Hi Hc).
    + split; [intros Hin; apply Hiff in Hin; discriminate|].
      intros _. apply Ok_inj in Hr. now apply Hplain.
  - intros Hf. rewrite (add_recurrence_falsy _ _ Hf) in Hr.
    apply Ok_inj in Hr. now apply Hplain.
Qed.

Lemma recurrence_rule_line_witness :
  let ev :=
    VDict [("summary", VStr "Gym"); ("start_date", VStr "2025-03-10");
           ("recurrence",
            VDict [("frequency", VStr "Daily"); ("interval", VInt 2);
                   ("count", VInt 5)])] in
  let yearly :=
    VDict [("summary", VStr "Gym"); ("start_date", VStr "2025-03-10");
           ("recurrence", VDict [("frequency", VStr "yearly")])] in
  (exists out blk,
      process_event sample_zones "UTC" ev = (out, Ok (Some blk)) /\
      rrule_lines blk = ["RRULE:FREQ=DAILY;INTERVAL=2;COUNT=5"]) /\
  (exists out blk,
      process_event sample_zones "UTC" yearly = (out, Ok (Some blk)) /\
      rrule_lines blk = []).
Proof.
  intros ev yearly. split.
  - eexists. eexists. split; [reflexivity|].
    destruct (recurrence_rule_line sample_zones "UTC" ev _ _ eq_refl)
      as (fs & tz & r & Hx & Hb & _ & Hdict & _).
    injection Hx as <-. injection Hb as <-.
    assert (Hne : [("frequency", VStr "Daily"); ("interval", VInt 2);
                   ("count", VInt 5)] <> []) by discriminate.
    assert (Hin : In (lower "Daily") ["daily"; "weekly"; "monthly"])
      by (left; reflexivity).
    refine (proj2 (proj2 (proj2
              (proj1 (Hdict _ eq_refl Hne eq_refl) Hin))) _).
    repeat split; reflexivity.
  - eexists. eexists. split; [reflexivity|].
    destruct (recurrence_rule_line sample_zones "UTC" yearly _ _ eq_refl)
      as (fs & tz & r & Hx & Hb & _ & Hdict & _).
    injection Hx as <-. injection Hb as <-.
    assert (Hne : [("frequency", VStr "yearly")] <> []) by discriminate.
    assert (Hout : ~ In (lower "yearly") ["daily"; "weekly"; "monthly"]).
    { simpl. intros [H | [H | [H | []]]]; discriminate. }
    refine (proj2 (proj2
              (proj2 (Hdict _ eq_refl Hne eq_refl) Hout)) _).
    repeat split; reflexivity.
Defined.

(** ** The lines of the written document *)

Lemma filter_none {A} (f : A -> bool) (l : list A) :
  Forall (fun x => f x = false) l -> List.filter f l = [].
Proof. induction 1 as [|x l Hx _ IH]; simpl; [|rewrite Hx]; auto. Qed.

Lemma filter_frame (t b e : string) (mid ls : list string) :
  List.filter (String.eqb t) mid = [] ->
  length (List.filter (String.eqb t) ((b :: mid ++ [e]) ++ ls)) =
  ((if (t =? b)%string then 1 else 0) + (if (t =? e)%string then 1 else 0) +
   length (List.filter (String.eqb t) ls))%nat.
Proof.
  intros Hmid.
  change ((b :: mid ++ [e]) ++ ls)%list with (b :: (mid ++ [e]) ++ ls)%list.
  cbn [List.filter]. rewrite !List.filter_app, Hmid. cbn [List.filter List.app].
  destruct (t =? b)%string, (t =? e)%string; simpl; lia.
Qed.

Lemma join_blocks_lines db local_timezone evs rs :
  Forall2 (turn_result db local_timezone) evs rs ->
  Forall (fun ev => forall fs,
              extract_fields ev = Ok fs -> clean_fields local_timezone fs)
    evs ->
  exists ls,
    join_blocks rs = text_lines ls /\ Forall one_line ls /\
    length (List.filter (String.eqb "BEGIN:VEVENT") ls) = count_blocks rs /\
    length (List.filter (String.eqb "END:VEVENT") ls) = count_blocks rs.
Proof.
  induction 1 as [|ev r evs rs [out Hev] _ IH]; intros Hclean.
  - exists []. repeat split. constructor.
  - apply Forall_cons in Hclean as [Hc Hrest].
    destruct (IH Hrest) as (ls & Hj & Hone & Hb & He).
    destruct r as [blk|]; [|exists ls; auto].
    pose proof (proj1 (process_event_emits _ _ _ _ _) Hev)
      as (fs & _ & _ & _ & Hx & _).
    destruct (emitted_block_lines _ _ _ _ _ _ Hx (Hc fs Hx) Hev)
      as (mid & -> & Hmid).
    exists (("BEGIN:VEVENT" :: mid ++ ["END:VEVENT"]) ++ ls)%list.
    assert (Hmb : List.filter (String.eqb "BEGIN:VEVENT") mid = [])
      by (apply filter_none; eapply List.Forall_impl; [|exact Hmid];
          simpl; tauto).
    assert (Hme : List.filter (String.eqb "END:VEVENT") mid = [])
      by (apply filter_none; eapply List.Forall_impl; [|exact Hmid];
          simpl; tauto).
    split; [|split; [|split]].
    + cbn [join_blocks]. now rewrite text_lines_app, Hj.
    + apply List.Forall_app. split; [|exact Hone].
      constructor; [reflexivity|]. apply List.Forall_app. split.
      * eapply List.Forall_impl; [|exact Hmid]. simpl. tauto.
      * repeat constructor.
    + rewrite (filter_frame _ _ _ _ _ Hmb), Hb. reflexivity.
    + rewrite (filter_frame _ _ _ _ _ Hme), He. reflexivity.
Qed.

(** X10.  When no text that goes into a block has a line break
    (summary, location, description, zone name, recurrence numbers),
    the written document is well formed line by line: it opens with the
    four header lines, closes with [END:VCALENDAR], and holds as many
    [BEGIN:VEVENT] lines as [END:VEVENT] lines, one pair per emitted
    block.  (The texts are copied as they are, so the condition is
    needed.) *)
Theorem clean_run_is_well_formed evs filename w w' :
  generate_ics (VList evs) filename w = (Ok tt, w') ->
  Forall (fun ev => forall fs,
              extract_fields ev = Ok fs -> clean_fields (local_zone w) fs)
    evs ->
  exists rs doc body,
    Forall2 (turn_result (zones w) (local_zone w)) evs rs /\
    files w' !! filename = Some doc /\
    split_lines doc =
      (["BEGIN:VCALENDAR"; "VERSION:2.0";
        "PRODID:-//Custom Calendar//NONSGML v1.0//EN";
        "CALSCALE:GREGORIAN"] ++ body ++ ["END:VCALENDAR"])%list /\
    count_line "BEGIN:VEVENT" doc = count_blocks rs /\
    count_line "END:VEVENT" doc = count_blocks rs.
Proof.
  intros H Hclean.
  apply generate_ics_ok in H as (out & doc & Hdoc & Hfile).
  apply ics_document_ok in Hdoc as (c & Hf & ->).
  apply for_events_blocks in Hf as (rs & Hrs & ->).
  destruct (join_blocks_lines _ _ _ _ Hrs Hclean)
    as (ls & Hj & Hone & Hb & He).
  assert (Hsplit :
      split_lines ((ics_header ++ join_blocks rs) ++ ics_footer) =
      (["BEGIN:VCALENDAR"; "VERSION:2.0";
        "PRODID:-//Custom Calendar//NONSGML v1.0//EN";
        "CALSCALE:GREGORIAN"] ++ ls ++ ["END:VCALENDAR"])%list).
  { rewrite Hj.
    change ics_header with
      (text_lines ["BEGIN:VCALENDAR"; "VERSION:2.0";
                   "PRODID:-//Custom Calendar//NONSGML v1.0//EN";
                   "CALSCALE:GREGORIAN"]).
    rewrite <- text_lines_app, split_lines_text_lines.
    - now rewrite <- app_assoc.
    - apply List.Forall_app. split; [|exact Hone].
      repeat constructor. }
  exists rs, ((ics_header ++ join_blocks rs) ++ ics_footer), ls.
  split; [exact Hrs|]. split; [exact Hfile|]. split; [exact Hsplit|].
  unfold count_line. rewrite Hsplit.
  split; rewrite !List.filter_app, !length_app;
    [rewrite Hb | rewrite He]; simpl; lia.
Qed.

Lemma clean_run_is_well_formed_witness :
  let a := VDict [("summary", VStr "A"); ("start_date", VStr "2025-03-10")] in
  let b := VDict [("summary", VStr "B"); ("start_date", VStr "none")] in
  let c := VDict [("summary", VStr "C"); ("start_date", VStr "2025-03-12");
                  ("start_time", VStr "09:30");
                  ("recurrence", VDict [("frequency", VStr "weekly")])] in
  exists rs doc body,
    Forall2 (turn_result sample_zones "Australia/Adelaide") [a; b; c] rs /\
    files (snd (generate_ics (VList [a; b; c]) "calendar.ics" sample_world))
      !! "calendar.ics" = Some doc /\
    split_lines doc =
      (["BEGIN:VCALENDAR"; "VERSION:2.0";
        "PRODID:-//Custom Calendar//NONSGML v1.0//EN";
        "CALSCALE:GREGORIAN"] ++ body ++ ["END:VCALENDAR"])%list /\
    count_line "BEGIN:VEVENT" doc = count_blocks rs /\
    count_line "END:VEVENT" doc = count_blocks rs.
Proof.
  intros a b c.
  apply (clean_run_is_well_formed [a; b; c] "calendar.ics" sample_world
           (snd (generate_ics (VList [a; b; c]) "calendar.ics" sample_world))
           eq_refl).
  repeat (apply List.Forall_cons;
          [intros fs [= <-]; repeat split; reflexivity|]).
  apply List.Forall_nil.
Defined.

(* ================================================================== *)
(** * Properties of [API.py] *)
(* ================================================================== *)

(** ** The API key *)

Lemma lstrip_idempotent s : lstrip (lstrip s) = lstrip s.
Proof.
  induction s as [|c s IH]; [reflexivity|].
  cbn [lstrip]. destruct (is_space c) eqn:Hc; [exact IH|].
  cbn [lstrip]. now rewrite Hc.
Qed.

Lemma rstrip_cons c r :
  rstrip (String c r) =
  match rstrip r with
  | EmptyString => if is_space c then EmptyString else String c EmptyString
  | r' => String c r'
  end.
Proof. reflexivity. Qed.

Lemma rstrip_idempotent s : rstrip (rstrip s) = rstrip s.
Proof.
  induction s as [|c s IH]; [reflexivity|].
  rewrite rstrip_cons. destruct (rstrip s) as [|x r'] eqn:Hr.
  - destruct (is_space c) eqn:Hc; [reflexivity|].
    rewrite rstrip_cons. cbn [rstrip]. now rewrite Hc.
  - rewrite rstrip_cons, IH. reflexivity.
Qed.

Lemma rstrip_lstrip s : rstrip s = s -> rstrip (lstrip s) = lstrip s.
Proof.
  induction s as [|c s IH]; [reflexivity|].
  intros H. cbn [lstrip]. destruct (is_space c) eqn:Hc; [|exact H].
  apply IH. rewrite rstrip_cons in H.
  destruct (rstrip s) as [|x r'] eqn:Hr.
  - rewrite Hc in H. discriminate.
  - now injection H.
Qed.

Lemma strip_idempotent s : strip (strip s) = strip s.
Proof.
  unfold strip.
  rewrite (rstrip_lstrip (rstrip s) (rstrip_idempotent s)).
  apply lstrip_idempotent.
Qed.

(** X11.  The constructor refuses a key that is empty or made of
    ASCII white space only with [ValueError]; any other key of ASCII
    text gives an object whose key is the given one without the white
    space around it, hence not empty, and whose other attributes are the
    arguments as given. *)
Theorem API_init_strips_the_key gemini_api_key loc lang model :
  (all_space gemini_api_key = true ->
   API_init gemini_api_key loc lang model = Raise ValueError) /\
  (is_ascii gemini_api_key = true ->
   all_space gemini_api_key = false ->
   exists self,
     API_init gemini_api_key loc lang model = Ok self /\
     api_key self = strip gemini_api_key /\
     api_key self <> "" /\
     strip (api_key self) = api_key self /\
     location self = loc /\ language self = lang /\
     default_model self = model).
Proof.
  unfold API_init. cbv zeta. cbn [truthy]. rewrite negb_involutive.
  split; [intros Hk | intros _ Hk].
  - apply strip_empty_iff in Hk. now rewrite Hk.
  - destruct (String.eqb_spec (strip gemini_api_key) "") as [He|Hne].
    + apply strip_empty_iff in He. congruence.
    + eexists. split; [reflexivity|]. cbn.
      repeat split; auto. apply strip_idempotent.
Qed.

Lemma API_init_strips_the_key_witness :
  API_init "   " "Australia/Adelaide" "English" "gemini-2.5-flash"
    = Raise ValueError /\
  exists self,
    API_init "  k-123 " "Australia/Adelaide" "English" "gemini-2.5-flash"
      = Ok self /\
    api_key self = "k-123".
Proof.
  split.
  - apply (proj1 (API_init_strips_the_key "   " _ _ _)). reflexivity.
  - destruct (proj2 (API_init_strips_the_key "  k-123 "
                       "Australia/Adelaide" "English" "gemini-2.5-flash")
                eq_refl eq_refl) as (self & Hinit & Hkey & _).
    exists self. split; [exact Hinit | exact Hkey].
Defined.

(** ** The date in the prompt *)

Lemma take_digits_pad2 n :
  take_digits (pad2 n) = ([(n / 10) mod 10; n mod 10], "").
Proof.
  unfold pad2. cbn [take_digits]. now rewrite !digit_val_digit_char.
Qed.

Lemma take_digits_pad4 n :
  take_digits (pad4 n) =
  ([(n / 1000) mod 10; (n / 100) mod 10; (n / 10) mod 10; n mod 10], "").
Proof.
  unfold pad4. cbn [take_digits]. now rewrite !digit_val_digit_char.
Qed.

Lemma digits_field_pad4 n r :
  0 <= n <= 9999 ->
  match r with String c _ => digit_val c = None | EmptyString => True end ->
  digits_field 4 4 0 9999 (pad4 n ++ r) = Some (n, r).
Proof.
  intros Hn Hr. unfold digits_field.
  rewrite (take_digits_app _ _ Hr), take_digits_pad4. cbn [fst snd length].
  assert (number [(n / 1000) mod 10; (n / 100) mod 10; (n / 10) mod 10;
                  n mod 10] = n) as ->
    by (unfold number; cbn [fold_left];
        Z.to_euclidean_division_equations; lia).
  assert ((0 <=? n) = true) as -> by lia.
  assert ((n <=? 9999) = true) as -> by lia.
  reflexivity.
Qed.

Lemma digits_field_pad2 lo hi n r :
  0 <= n <= 99 -> lo <= n <= hi ->
  match r with String c _ => digit_val c = None | EmptyString => True end ->
  digits_field 1 2 lo hi (pad2 n ++ r) = Some (n, r).
Proof.
  intros Hn Hb Hr. unfold digits_field.
  rewrite (take_digits_app _ _ Hr), take_digits_pad2. cbn [fst snd length].
  assert (number [(n / 10) mod 10; n mod 10] = n) as ->
    by (unfold number; cbn [fold_left];
        Z.to_euclidean_division_equations; lia).
  assert ((lo <=? n) = true) as -> by lia.
  assert ((n <=? hi) = true) as -> by lia.
  reflexivity.
Qed.

Lemma digit_char_not_blank n : digit_char n <> " "%char.
Proof.
  intros H. pose proof (digit_val_digit_char n) as Hd.
  rewrite H in Hd. discriminate.
Qed.

(** The text [strftime("%Y-%m-%d")] writes for a valid date from the
    year 1000 on is read back by [strptime] with the same format as that
    date. *)
Lemma strptime_strftime_iso d :
  valid_date d = true -> 1000 <= year d ->
  strptime_date (strftime_iso d) = Some d.
Proof.
  intros Hv Hk. pose proof (valid_date_bounds d Hv) as (Hy & Hm & Hd).
  pose proof (days_in_month_bounds (year d) (month d)) as Hdim.
  unfold strptime_date, match_ymd, strftime_iso, re_Y, re_m.
  rewrite strftime_Y_pad4 by lia.
  rewrite digits_field_pad4 by (first [lia | reflexivity]).
  cbn [String.append expect].
  change ("-" =? "-")%char with true. cbv iota.
  rewrite (digits_field_pad2 1 12) by (first [lia | reflexivity]).
  cbn [String.append expect].
  change ("-" =? "-")%char with true. cbv iota.
  unfold pad2 at 1.
  rewrite re_d_cons_not_blank by apply digit_char_not_blank.
  fold (pad2 (day d)). rewrite <- (append_nil_r (pad2 (day d))).
  rewrite (digits_field_pad2 1 31) by (first [lia | exact I]).
  unfold make_date. destruct d as [y m dd]. cbn [year month day] in *.
  now rewrite Hv.
Qed.

(** Before the year 1000 the text has fewer than four digits for the
    year, and [strptime] refuses it. *)
Lemma strptime_strftime_iso_short d :
  valid_date d = true -> year d < 1000 ->
  strptime_date (strftime_iso d) = None.
Proof.
  intros Hv Hk. pose proof (valid_date_bounds d Hv) as (Hy & _).
  destruct (strftime_Y_digits (year d) Hy) as (dy & Hdy & _ & Hl).
  unfold strptime_date, match_ymd, strftime_iso, re_Y, digits_field.
  rewrite (take_digits_app (strftime_Y (year d)) ("-" ++ _) eq_refl), Hdy.
  cbn [fst snd].
  assert (length dy <> 4%nat) as Hne by (rewrite Hl; lia).
  destruct (Nat.leb_spec 4 (length dy)) as [H4|H4];
    [destruct (Nat.leb_spec (length dy) 4) as [H4'|H4']; [lia|]|];
    reflexivity.
Qed.

Lemma is_infix_here p after : is_infix p (p ++ after).
Proof. exists "", after. reflexivity. Qed.

Lemma is_infix_app x p s : is_infix p s -> is_infix p (x ++ s).
Proof.
  intros (b & a & ->). exists (x ++ b), a. now rewrite append_assoc.
Qed.

Lemma is_infix_three a1 a2 b c rest lit :
  lit = a1 ++ a2 ->
  is_infix (a2 ++ b ++ c) (lit ++ b ++ c ++ rest).
Proof.
  intros ->. exists a1, rest. now rewrite !append_assoc.
Qed.



(** ** The search for a JSON object *)

Lemma no_char_app c a b :
  no_char c (a ++ b) = no_char c a && no_char c b.
Proof.
  induction a as [|x a IH]; simpl; [reflexivity|].
  now rewrite IH, andb_assoc.
Qed.

Lemma upto_last_close_none r :
  upto_last_close r = None <-> no_char "}" r = true.
Proof.
  induction r as [|c r IH]; simpl; [tauto|].
  destruct (upto_last_close r) as [p|].
  - split; [discriminate|]. intros H.
    apply andb_true_iff in H as [_ H]. apply IH in H. discriminate.
  - destruct (c =? "}")%char; simpl.
    + split; discriminate.
    + split; intros _; [now apply IH | reflexivity].
Qed.

Lemma upto_last_close_app body post :
  no_char "}" post = true ->
  upto_last_close (body ++ "}" ++ post) = Some (body ++ "}").
Proof.
  intros Hp. induction body as [|c body IH]; simpl in *.
  - now rewrite (proj2 (upto_last_close_none post) Hp).
  - now rewrite IH.
Qed.

Lemma upto_last_close_some r p :
  upto_last_close r = Some p ->
  exists body post,
    p = body ++ "}" /\ r = p ++ post /\ no_char "}" post = true.
Proof.
  revert p. induction r as [|c r IH]; intros p; simpl; [discriminate|].
  destruct (upto_last_close r) as [q|] eqn:E.
  - intros [= <-]. destruct (IH _ eq_refl) as (body & post & -> & Hr & Hn).
    exists (String c body), post. simpl. now rewrite Hr at 1.
  - destruct (c =? "}")%char eqn:Ec; [|discriminate].
    intros [= <-]. apply Ascii.eqb_eq in Ec. subst c.
    exists "", r. simpl. repeat split. now apply upto_last_close_none.
Qed.

Lemma search_json_object_found pre body post :
  no_char "{" pre = true -> no_char "}" post = true ->
  search_json_object (pre ++ "{" ++ body ++ "}" ++ post)
    = Some ("{" ++ body ++ "}").
Proof.
  intros Hpre Hpost. induction pre as [|c pre IH]; simpl.
  - pose proof (upto_last_close_app body post Hpost) as H.
    simpl in H. now rewrite H.
  - simpl in Hpre. apply andb_true_iff in Hpre as [Hc Hpre].
    apply negb_true_iff in Hc. rewrite Hc. now apply IH.
Qed.

Lemma search_json_object_span s j :
  search_json_object s = Some j -> brace_span s j.
Proof.
  induction s as [|c s IH]; simpl; [discriminate|].
  destruct (c =? "{")%char eqn:Ec.
  - apply Ascii.eqb_eq in Ec. subst c.
    destruct (upto_last_close s) as [p|] eqn:E.
    + intros [= <-].
      destruct (upto_last_close_some _ _ E) as (body & post & -> & Hs & Hn).
      exists "", body, post. simpl. rewrite Hs at 1.
      rewrite append_assoc. repeat split; assumption.
    + intros H. destruct (IH H) as (pre & body & post & Hs & _).
      apply upto_last_close_none in E. rewrite Hs in E.
      rewrite !no_char_app in E. simpl in E.
      rewrite !andb_false_r in E. discriminate.
  - intros H. destruct (IH H) as (pre & body & post & -> & Hp & Hq & ->).
    exists (String c pre), body, post. simpl. rewrite Ec, Hp.
    repeat split; assumption.
Qed.

Lemma search_json_object_some pre body post :
  search_json_object (pre ++ "{" ++ body ++ "}" ++ post) <> None.
Proof.
  assert (Hc : forall t, upto_last_close (t ++ "}" ++ post) <> None).
  { intros t H. apply upto_last_close_none in H.
    rewrite no_char_app in H. simpl in H.
    rewrite andb_false_r in H. discriminate. }
  induction pre as [|c pre IH]; simpl.
  - specialize (Hc body). destruct (upto_last_close _); [discriminate|].
    now contradiction Hc.
  - destruct (c =? "{")%char; [|exact IH].
    specialize (Hc (pre ++ "{" ++ body)). rewrite !append_assoc in Hc.
    simpl in Hc. destruct (upto_last_close _); [discriminate|].
    now contradiction Hc.
Qed.

(** X13.  What [re.search] with the pattern [\{.*\}] and [DOTALL] finds:
    the text from the first opening brace of the reply to its last
    closing brace, when the latter comes after the former; and it finds
    nothing exactly when no opening brace is followed by a closing
    one. *)
Theorem search_json_object_spec s :
  (forall j, search_json_object s = Some j <-> brace_span s j) /\
  (search_json_object s = None <->
   forall pre body post, s <> pre ++ "{" ++ body ++ "}" ++ post).
Proof.
  split.
  - intros j. split; [apply search_json_object_span|].
    intros (pre & body & post & -> & Hp & Hq & ->).
    now apply search_json_object_found.
  - split.
    + intros H pre body post ->. now apply search_json_object_some in H.
    + intros H. destruct (search_json_object s) as [j|] eqn:E; [|reflexivity].
      apply search_json_object_span in E as (pre & body & post & E & _).
      now apply H in E.
Qed.

Lemma search_json_object_spec_witness :
  search_json_object "Sure: {x} and {y}. Bye" = Some "{x} and {y}" /\
  search_json_object "} then {" = None.
Proof.
  split.
  - apply (proj1 (search_json_object_spec _)).
    exists "Sure: ", "x} and {y", ". Bye". repeat split.
  - apply (proj2 (search_json_object_spec _)). intros pre body post H.
    pose proof (search_json_object_some pre body post) as Hs.
    rewrite <- H in Hs. now apply Hs.
Defined.

(** X14.  The match is greedy: of a reply that holds two objects, the
    text handed to [json.loads] is the whole stretch from the opening
    brace of the first to the closing brace of the last, not the first
    object. *)
Theorem two_objects_are_taken_as_one a mid b :
  search_json_object ("{" ++ a ++ "}" ++ mid ++ "{" ++ b ++ "}")
    = Some ("{" ++ a ++ "}" ++ mid ++ "{" ++ b ++ "}").
Proof.
  pose proof (search_json_object_found "" (a ++ "}" ++ mid ++ "{" ++ b) ""
                eq_refl eq_refl) as H.
  simpl in H. repeat (rewrite append_assoc in H; simpl in H). exact H.
Qed.

(** X15.  Prose around the braces has no effect on the result of
    [extract_and_parse_json]: a reply whose text before the object has
    no opening brace and whose text after it has no closing brace is
    handled as the object alone. *)
Theorem surrounding_prose_is_ignored json_loads pre body post :
  no_char "{" pre = true -> no_char "}" post = true ->
  extract_and_parse_json json_loads (pre ++ "{" ++ body ++ "}" ++ post)
    = extract_and_parse_json json_loads ("{" ++ body ++ "}").
Proof.
  intros Hp Hq. unfold extract_and_parse_json.
  rewrite (search_json_object_found pre body post Hp Hq).
  pose proof (search_json_object_found "" body "" eq_refl eq_refl) as H.
  simpl in H. simpl. now rewrite H.
Qed.

Lemma surrounding_prose_is_ignored_witness :
  let json_loads (s : string) :=
    if (s =? "{}")%string then Some (VDict []) else None in
  extract_and_parse_json json_loads ("Here you are:" ++ "{" ++ "" ++ "}" ++ " Bye")
    = extract_and_parse_json json_loads ("{" ++ "" ++ "}").
Proof.
  intros json_loads.
  exact (surrounding_prose_is_ignored json_loads "Here you are:" "" " Bye"
           eq_refl eq_refl).
Defined.

(** ** The report of [extract_event] *)

Lemma report_conversions_dicts evs :
  Forall (fun e => is_dict e = true) evs ->
  report_conversions evs
    = (map conversion_line (List.filter has_conversion evs), Ok tt).
Proof.
  induction 1 as [|e evs He _ IH]; [reflexivity|].
  destruct e as [| | | | |d]; try discriminate.
  cbn [report_conversions List.filter has_conversion py_get].
  destruct (truthy (dict_get_or d "tz_conversion" (VStr ""))).
  - rewrite IH. reflexivity.
  - exact IH.
Qed.

Lemma report_conversions_ok evs out u :
  report_conversions evs = (out, Ok u) ->
  Forall (fun e => is_dict e = true) evs.
Proof.
  destruct u. revert out. induction evs as [|e evs IH]; intros out H.
  - apply List.Forall_nil.
  - destruct e as [| | | | |d]; try discriminate.
    apply List.Forall_cons; [reflexivity|].
    cbn [report_conversions py_get] in H.
    destruct (truthy (dict_get_or d "tz_conversion" (VStr ""))).
    + destruct (report_conversions evs) as [out' [[]|e]] eqn:E;
        [|discriminate].
      exact (IH out' eq_refl).
    + exact (IH out H).
Qed.

Lemma report_conversions_stops pre v post :
  Forall (fun e => is_dict e = true) pre ->
  is_dict v = false ->
  report_conversions (pre ++ v :: post)
    = (map conversion_line (List.filter has_conversion pre),
       Raise AttributeError).
Proof.
  intros Hpre Hv. induction Hpre as [|e pre He _ IH].
  - destruct v; try discriminate; reflexivity.
  - destruct e as [| | | | |d]; try discriminate.
    cbn [List.app report_conversions List.filter has_conversion py_get].
    destruct (truthy (dict_get_or d "tz_conversion" (VStr ""))).
    + rewrite IH. reflexivity.
    + exact IH.
Qed.

Lemma extract_event_unfold gc jl today self message raw :
  service_replies gc today self message raw ->
  extract_event gc jl today self message =
  match extract_and_parse_json jl raw with
  | (out2, Raise e) => (banner self :: out2, Raise e)
  | (out2, Ok data) =>
      if truthy data then
        match (let+ events := py_get data "events" (VList []) in
               py_iter events) with
        | Raise e => (banner self :: out2, Raise e)
        | Ok events =>
            match report_conversions events with
            | (out3, Raise e) => (banner self :: (out2 ++ out3)%list, Raise e)
            | (out3, Ok _) => (banner self :: (out2 ++ out3)%list, Ok data)
            end
        end
      else (banner self :: out2, Ok data)
  end.
Proof.
  intros Hrep. unfold service_replies in Hrep.
  unfold extract_event, gemini_calendar, gemini_normal. cbv zeta.
  rewrite Hrep. reflexivity.
Qed.

Lemma extract_event_inv gc jl today self message out data :
  extract_event gc jl today self message = (out, Ok data) ->
  (data = VNone /\
   (out = [banner self; LogNoJson] \/ out = [banner self; LogDecodeFailed]))
  \/
  exists d evs n,
    data = VDict d /\
    py_len (dict_get_or d "events" (VList [])) = Ok n /\
    py_iter (dict_get_or d "events" (VList [])) = Ok evs /\
    Forall (fun e => is_dict e = true) evs /\
    out = ([banner self; LogParsed n]
           ++ map conversion_line (List.filter has_conversion evs))%list.
Proof.
  intros H.
  destruct (gc (default_model self)
              [("user", [generate_prompt self today ++ nl ++ message])])
    as [raw|e] eqn:Hrep.
  2:{ unfold extract_event, gemini_calendar, gemini_normal in H.
      cbv zeta in H. rewrite Hrep in H. discriminate. }
  rewrite (extract_event_unfold _ _ _ _ _ _ Hrep) in H.
  unfold extract_and_parse_json in H.
  destruct (search_json_object raw) as [j|].
  2:{ cbn in H. injection H as <- <-. left. auto. }
  destruct (jl j) as [parsed|].
  2:{ cbn in H. injection H as <- <-. left. auto. }
  destruct parsed as [| | | | |d]; try discriminate.
  right. cbn [py_get rbind] in H.
  destruct (py_len (dict_get_or d "events" (VList []))) as [n|e] eqn:Hn;
    [|discriminate].
  destruct (truthy (VDict d)) eqn:Ht.
  - unfold rbind, py_get in H.
    destruct (py_iter (dict_get_or d "events" (VList []))) as [evs|e] eqn:Hi;
      cbv beta iota in H; [|discriminate].
    destruct (report_conversions evs) as [out3 [u|e]] eqn:Hr;
      cbv beta iota in H; [|discriminate].
    injection H as <- <-.
    pose proof (report_conversions_ok _ _ _ Hr) as Hd.
    rewrite (report_conversions_dicts _ Hd) in Hr. injection Hr as <-.
    exists d, evs, n. repeat split; assumption.
  - injection H as <- <-. destruct d; [|discriminate].
    cbn in Hn. injection Hn as <-.
    exists [], [], 0%nat. repeat split. apply List.Forall_nil.
Qed.





(** X18.  An [events] entry that has no length (null, a number, true or
    false) makes [extract_and_parse_json] raise: the [try] statement
    catches the decoding error only, so [extract_event] ends with that
    exception after the banner, with nothing logged and no value
    returned. *)
Theorem unsized_events_entry_raises gc jl today self message raw j d v e :
  service_replies gc today self message raw ->
  search_json_object raw = Some j ->
  jl j = Some (VDict d) ->
  dict_get d "events" = Some v ->
  py_len v = Raise e ->
  e = TypeError /\
  extract_and_parse_json jl raw = ([], Raise TypeError) /\
  extract_event gc jl today self message = ([banner self], Raise TypeError).
Proof.
  intros Hrep Hs Hj He Hl.
  assert (e = TypeError) as ->
    by (destruct v; cbn in Hl; congruence).
  assert (Hx : extract_and_parse_json jl raw = ([], Raise TypeError)).
  { unfold extract_and_parse_json. rewrite Hs, Hj.
    unfold py_get, dict_get_or. rewrite He. cbn [rbind]. now rewrite Hl. }
  repeat split; [exact Hx|].
  rewrite (extract_event_unfold _ _ _ _ _ _ Hrep), Hx. reflexivity.
Qed.

Lemma unsized_events_entry_raises_witness :
  extract_event (constant_service "{E}")
    (table_loads "{E}" (VDict [("events", VNone)]))
    sample_today sample_api "Nothing planned"
  = ([banner sample_api], Raise TypeError).
Proof.
  exact (proj2 (proj2 (unsized_events_entry_raises
                         (constant_service "{E}")
                         (table_loads "{E}" (VDict [("events", VNone)]))
                         sample_today sample_api "Nothing planned"
                         "{E}" "{E}" [("events", VNone)] VNone TypeError
                         eq_refl eq_refl eq_refl eq_refl eq_refl))).
Defined.

(** X19.  What [extract_event] returns without an exception is null,
    after the log of a reply without an object or of a decoding failure,
    or the parsed dict, whose [events] entry (an empty list when absent)
    then iterates over dicts only; the output is the banner, the log
    line and the conversion lines of those dicts. *)
Theorem extract_event_result_shape gc jl today self message out data :
  extract_event gc jl today self message = (out, Ok data) ->
  (data = VNone /\
   (out = [banner self; LogNoJson] \/ out = [banner self; LogDecodeFailed]))
  \/
  exists d evs n,
    data = VDict d /\
    py_len (dict_get_or d "events" (VList [])) = Ok n /\
    py_iter (dict_get_or d "events" (VList [])) = Ok evs /\
    Forall (fun e => is_dict e = true) evs /\
    out = ([banner self; LogParsed n]
           ++ map conversion_line (List.filter has_conversion evs))%list.
Proof. apply extract_event_inv. Qed.

Lemma extract_event_result_shape_witness :
  (VNone = VNone /\
   ([banner sample_api; LogNoJson] = [banner sample_api; LogNoJson] \/
    [banner sample_api; LogNoJson] = [banner sample_api; LogDecodeFailed]))
  \/
  exists d evs n,
    VNone = VDict d /\
    py_len (dict_get_or d "events" (VList [])) = Ok n /\
    py_iter (dict_get_or d "events" (VList [])) = Ok evs /\
    Forall (fun e => is_dict e = true) evs /\
    [banner sample_api; LogNoJson] =
      ([banner sample_api; LogParsed n]
       ++ map conversion_line (List.filter has_conversion evs))%list.
Proof.
  exact (extract_event_result_shape
           (constant_service "Sorry, no events.") (fun _ => None)
           sample_today sample_api "Nothing planned"
           [banner sample_api; LogNoJson] VNone eq_refl).
Defined.

(** ** From [extract_event] to [generate_ics] *)

Lemma generate_ics_rejects events filename w :
  match unwrap_events events with VList _ => False | _ => True end ->
  generate_ics events filename w = (Raise TypeError, w).
Proof.
  intros H. unfold generate_ics, ics_document.
  destruct (unwrap_events events); try contradiction;
    unfold raise; now rewrite with_output_nil.
Qed.

(** X20.  What [generate_ics] does with a value returned by
    [extract_event]: either the value is a dict that holds a list of
    dicts under [events], and the run is the run on that list; or the
    value is refused with a [TypeError] before anything is printed or
    written. *)
Theorem extract_event_then_generate_ics gc jl today self message out data
    filename w :
  extract_event gc jl today self message = (out, Ok data) ->
  (exists d evs,
     data = VDict d /\ dict_get d "events" = Some (VList evs) /\
     Forall (fun e => is_dict e = true) evs /\
     generate_ics data filename w = generate_ics (VList evs) filename w)
  \/ generate_ics data filename w = (Raise TypeError, w).
Proof.
  intros H. apply extract_event_inv in H
    as [[-> _] | (d & evs & n & -> & Hn & Hi & Hd & _)].
  - right. now apply generate_ics_rejects.
  - unfold dict_get_or in Hi.
    destruct (dict_get d "events") as [v|] eqn:He.
    + destruct v as [| | | | l | d']; try discriminate.
      * right. apply generate_ics_rejects. cbn. now rewrite He.
      * left. injection Hi as <-. exists d, l. repeat split; try assumption.
        unfold generate_ics, ics_document, unwrap_events. now rewrite He.
      * right. apply generate_ics_rejects. cbn. now rewrite He.
    + right. apply generate_ics_rejects. cbn. now rewrite He.
Qed.

Lemma extract_event_then_generate_ics_witness :
  let data := VDict [("events", VList [sample_talk; sample_lunch])] in
  (exists d evs,
     data = VDict d /\ dict_get d "events" = Some (VList evs) /\
     Forall (fun e => is_dict e = true) evs /\
     generate_ics data "calendar.ics" sample_world
       = generate_ics (VList evs) "calendar.ics" sample_world)
  \/ generate_ics data "calendar.ics" sample_world
       = (Raise TypeError, sample_world).
Proof.
  intros data.
  exact (extract_event_then_generate_ics
           (constant_service "Here: {E} Bye") (table_loads "{E}" data)
           sample_today sample_api "Talk at 10:00 PST, then lunch"
           [banner sample_api; LogParsed 2;
            PrintConversion "10:00 PST to 04:30 ACDT" "Talk"]
           data "calendar.ics" sample_world eq_refl).
Defined.

(** X21.  An object without an [events] key is logged as parsed with 0
    events and returned by [extract_event]; [generate_ics] does not take
    it for an empty list, it refuses it with a [TypeError] and writes no
    file. *)
Theorem object_without_events_key gc jl today self message raw j d
    filename w :
  service_replies gc today self message raw ->
  search_json_object raw = Some j ->
  jl j = Some (VDict d) ->
  dict_get d "events" = None ->
  extract_event gc jl today self message
    = ([banner self; LogParsed 0], Ok (VDict d)) /\
  generate_ics (VDict d) filename w = (Raise TypeError, w).
Proof.
  intros Hrep Hs Hj He. split.
  - rewrite (extract_event_unfold _ _ _ _ _ _ Hrep).
    unfold extract_and_parse_json. rewrite Hs, Hj.
    unfold py_get, dict_get_or. rewrite He. cbn [rbind py_len py_iter length].
    destruct (truthy (VDict d)); [|reflexivity].
    rewrite He. reflexivity.
  - apply generate_ics_rejects. cbn. now rewrite He.
Qed.

Lemma object_without_events_key_witness :
  extract_event (constant_service "{E}")
    (table_loads "{E}" (VDict [("note", VStr "nothing found")]))
    sample_today sample_api "Nothing planned"
    = ([banner sample_api; LogParsed 0],
       Ok (VDict [("note", VStr "nothing found")])) /\
  generate_ics (VDict [("note", VStr "nothing found")]) "calendar.ics"
    sample_world = (Raise TypeError, sample_world).
Proof.
  exact (object_without_events_key
           (constant_service "{E}")
           (table_loads "{E}" (VDict [("note", VStr "nothing found")]))
           sample_today sample_api "Nothing planned"
           "{E}" "{E}" [("note", VStr "nothing found")]
           "calendar.ics" sample_world eq_refl eq_refl eq_refl eq_refl).
Defined.

(** ** The call of the service *)

(** X22.  [extract_event] consults the service once, for the default
    model and a history of one user message, the prompt followed by a
    line break and the text: its result depends on the service through
    the reply to that request only, and an exception of that call passes
    through after the banner, with nothing logged. *)
Theorem extract_event_asks_once gc jl today self message :
  (forall gc',
     gc' (default_model self)
         [("user", [generate_prompt self today ++ nl ++ message])]
     = gc (default_model self)
          [("user", [generate_prompt self today ++ nl ++ message])] ->
     extract_event gc' jl today self message
     = extract_event gc jl today self message) /\
  (forall e,
     gc (default_model self)
        [("user", [generate_prompt self today ++ nl ++ message])]
     = Raise e ->
     extract_event gc jl today self message = ([banner self], Raise e)).
Proof.
  split.
  - intros gc' H.
    unfold extract_event, gemini_calendar, gemini_normal. cbv zeta.
    now rewrite H.
  - intros e H.
    unfold extract_event, gemini_calendar, gemini_normal. cbv zeta.
    now rewrite H.
Qed.

Lemma extract_event_asks_once_witness :
  extract_event (fun model _ =>
                   if (model =? "gemini-2.5-flash")%string
                   then Raise ValueError else Ok "{E}")
    (fun _ => None) sample_today sample_api "Talk at 10:00"
  = ([banner sample_api], Raise ValueError).
Proof.
  exact (proj2 (extract_event_asks_once
                  (fun model _ =>
                     if (model =? "gemini-2.5-flash")%string
                     then Raise ValueError else Ok "{E}")
                  (fun _ => None) sample_today sample_api "Talk at 10:00")
               ValueError eq_refl).
Defined.
